(** * Sentiment analyser: backend adapters, stream reassembly, reply parsing

    A shallow embedding of [src/local_gpt_sentiment_analysis.py].

    Python values are an inductive type [pyval]; a Python [str] is the
    list of its code points.  Exceptions are values of [exn] and a
    computation that may raise returns a [result].  The collaborators the
    module calls (the HTTP library, the hosted completion client, the
    translation model and its tokenizer, the JSON decoder) are fields of
    an environment record [env].  Every call to a service and every
    [print] is recorded, in order, in a trace of [event]s; the JSON
    decoder is a pure function and leaves no event.  One run calls each
    service at most once, so a service is given as the function from the
    arguments of that call to its answer. *)

From Stdlib Require Import ZArith NArith List String Ascii Bool Lia PrimFloat.
Import ListNotations.
Local Open Scope Z_scope.
Local Set Warnings "-register-all".

(** ** Python values *)

(** A [str]: its code points, in order. *)
Definition pystr := list N.

(** The [str] written by an ASCII literal. *)
Definition lit (s : string) : pystr := map N_of_ascii (list_ascii_of_string s).
Arguments lit : simpl never.

Fixpoint pystr_eqb (a b : pystr) : bool :=
  match a, b with
  | [], [] => true
  | x :: a', y :: b' => N.eqb x y && pystr_eqb a' b'
  | _, _ => false
  end.

Inductive pyval :=
| PNone
| PBool (b : bool)
| PInt (z : Z)
| PFloat (f : float)
| PStr (s : pystr)
| PBytes (b : list N)
| PList (xs : list pyval)
| PTuple (xs : list pyval)
| PDict (kvs : list (pystr * pyval)).

(** ** Exceptions and results *)

Inductive exn :=
| Exception_ (arg : pyval)          (* [raise Exception(arg)] *)
| TypeError
| AttributeError
| IndexError
| KeyError (key : pystr)
| JSONDecodeError
| HTTPError (status_code : Z)
| LibraryError (cls : string).      (* any other [Exception] a collaborator raises *)

Inductive result (A : Type) :=
| Ok (a : A)
| Raise (e : exn).
Arguments Ok {A} a.
Arguments Raise {A} e.

Definition rbind {A B} (m : result A) (k : A -> result B) : result B :=
  match m with
  | Ok a => k a
  | Raise e => Raise e
  end.

Declare Scope res_scope.
Delimit Scope res_scope with res.
Notation "x <- m ;; k" := (rbind m (fun x => k))
  (at level 61, m at next level, right associativity) : res_scope.

(** ** The operations of Python the module uses *)

(** [bool(v)]: the truth value an [if] tests. *)
Definition truthy (v : pyval) : bool :=
  match v with
  | PNone => false
  | PBool b => b
  | PInt z => negb (z =? 0)
  | PFloat f => negb (PrimFloat.eqb f 0%float)
  | PStr s => match s with [] => false | _ => true end
  | PBytes b => match b with [] => false | _ => true end
  | PList xs => match xs with [] => false | _ => true end
  | PTuple xs => match xs with [] => false | _ => true end
  | PDict kvs => match kvs with [] => false | _ => true end
  end.

(** Lookup in a [dict] with [str] keys. *)
Fixpoint dict_lookup (k : pystr) (kvs : list (pystr * pyval)) : option pyval :=
  match kvs with
  | [] => None
  | (k', v) :: rest => if pystr_eqb k k' then Some v else dict_lookup k rest
  end.

Fixpoint is_prefix (p s : pystr) : bool :=
  match p, s with
  | [], _ => true
  | x :: p', y :: s' => N.eqb x y && is_prefix p' s'
  | _ :: _, [] => false
  end.

(** [p in s] on two [str]: substring test. *)
Fixpoint is_substring (p s : pystr) : bool :=
  is_prefix p s ||
  match s with
  | [] => false
  | _ :: s' => is_substring p s'
  end.

Definition is_str (k : pystr) (v : pyval) : bool :=
  match v with
  | PStr s => pystr_eqb k s
  | _ => false
  end.

(** [k in v] for a [str] key [k]. *)
Definition py_in (k : pystr) (v : pyval) : result bool :=
  match v with
  | PDict kvs => Ok (match dict_lookup k kvs with Some _ => true | None => false end)
  | PList xs => Ok (existsb (is_str k) xs)
  | PTuple xs => Ok (existsb (is_str k) xs)
  | PStr s => Ok (is_substring k s)
  | _ => Raise TypeError
  end.

(** [v[k]] for a [str] key [k]. *)
Definition py_getitem (v : pyval) (k : pystr) : result pyval :=
  match v with
  | PDict kvs =>
      match dict_lookup k kvs with
      | Some x => Ok x
      | None => Raise (KeyError k)
      end
  | _ => Raise TypeError
  end.

(** [v.get(k, default)]. *)
Definition py_get (v : pyval) (k : pystr) (default : pyval) : result pyval :=
  match v with
  | PDict kvs =>
      match dict_lookup k kvs with
      | Some x => Ok x
      | None => Ok default
      end
  | _ => Raise AttributeError
  end.

(** [str.join] on the empty separator: every part must be a [str]. *)
Fixpoint py_join (parts : list pyval) : result pystr :=
  match parts with
  | [] => Ok []
  | PStr s :: rest => (t <- py_join rest ;; Ok (s ++ t))%res
  | _ :: _ => Raise TypeError
  end.

(** [str.isspace] on one code point. *)
Definition is_space (c : N) : bool :=
  ((9 <=? c) && (c <=? 13) || (28 <=? c) && (c <=? 32)
   || (c =? 133) || (c =? 160) || (c =? 5760)
   || (8192 <=? c) && (c <=? 8202)
   || (c =? 8232) || (c =? 8233) || (c =? 8239) || (c =? 8287)
   || (c =? 12288))%N.

Fixpoint lstrip (s : pystr) : pystr :=
  match s with
  | [] => []
  | c :: s' => if is_space c then lstrip s' else s
  end.

Definition rstrip (s : pystr) : pystr := rev (lstrip (rev s)).

(** [s.strip()]. *)
Definition strip (s : pystr) : pystr := rstrip (lstrip s).

(** ** Collaborators and the trace of their calls *)

(** A batch of token-id sequences: what the tokenizer produces and the
    translation model consumes and generates. *)
Definition batch := list (list Z).

(** What [requests.post] hands back: the status and, since the call does
    not ask [requests] to stream, the whole body, which [iter_lines]
    then yields line by line. *)
Record response := mkResponse {
  status_code : Z;
  iter_lines : list (list N)
}.

Record message := mkMessage { content : pyval }.
Record choice := mkChoice { message_of : message }.
Record chat_completion := mkChatCompletion { choices : list choice }.

(** Keyword arguments of a call, as written at the call site. *)
Definition kwargs := list (pystr * pyval).

Record env := mkEnv {
  tokenizer : pystr -> result batch;
  lang_code_to_id : list (pystr * Z);
  model_generate : batch -> Z -> Z -> result batch;
  batch_decode : batch -> result (list pystr);
  requests_post : pystr -> kwargs -> result response;
  chat_completions_create : kwargs -> result chat_completion;
  json_loads : pyval -> result pyval
}.

Inductive event :=
| EPrint (v : pyval)
| ETokenizer (article : pystr)
| EGenerate (inputs : batch) (forced_bos_token_id max_length : Z)
| EBatchDecode (tokens : batch)
| EPost (url : pystr) (kw : kwargs)
| ECreate (kw : kwargs).

(** A computation: its outcome and the events it caused, oldest first. *)
Definition M (A : Type) : Type := (result A * list event)%type.

Definition ret {A} (a : A) : M A := (Ok a, []).
Definition raise {A} (e : exn) : M A := (Raise e, []).
Definition liftR {A} (r : result A) : M A := (r, []).
Definition call {A} (ev : event) (r : result A) : M A := (r, [ev]).

Definition bind {A B} (m : M A) (k : A -> M B) : M B :=
  match m with
  | (Ok a, t) => let '(r, t') := k a in (r, t ++ t')
  | (Raise e, t) => (Raise e, t)
  end.

(** [try: m  except Exception: h]. *)
Definition try_except {A} (m : M A) (h : exn -> M A) : M A :=
  match m with
  | (Ok a, t) => (Ok a, t)
  | (Raise e, t) => let '(r, t') := h e in (r, t ++ t')
  end.

Declare Scope py_scope.
Delimit Scope py_scope with py.
Notation "x <- m ;; k" := (bind m (fun x => k))
  (at level 61, m at next level, right associativity) : py_scope.
Notation "m ;; k" := (bind m (fun _ => k))
  (at level 61, right associativity) : py_scope.
Local Open Scope py_scope.

Definition outcome {A} (m : M A) : result A := fst m.
Definition trace {A} (m : M A) : list event := snd m.

(** [print(v)]: recorded with the object printed; writing to the standard
    output is taken to succeed. *)
Definition print (v : pyval) : M unit := call (EPrint v) (Ok tt).

(** ** Module constants *)

Definition OLLAMA_MODEL : pystr := lit "mistral".
Definition OPENAI_MODEL : pystr := lit "gpt-4-1106-preview".
Definition OLLAMA_URL : pystr := lit "http://localhost:11434/api/generate".

(** ** The translator *)

Fixpoint id_lookup (k : pystr) (d : list (pystr * Z)) : option Z :=
  match d with
  | [] => None
  | (k', v) :: rest => if pystr_eqb k k' then Some v else id_lookup k rest
  end.

Definition nllb_translate_tr_to_eng (w : env) (article : pystr) : M pystr :=
  inputs <- call (ETokenizer article) (tokenizer w article) ;;
  bos <- liftR (match id_lookup (lit "eng_Latn") (lang_code_to_id w) with
                | Some i => Ok i
                | None => Raise (KeyError (lit "eng_Latn"))
                end) ;;
  translated_tokens <- call (EGenerate inputs bos 30) (model_generate w inputs bos 30) ;;
  decoded <- call (EBatchDecode translated_tokens) (batch_decode w translated_tokens) ;;
  match decoded with
  | eng :: _ => ret eng
  | [] => raise IndexError
  end.

(** ** The local adapter *)

(** [response.raise_for_status()]. *)
Definition raise_for_status (r : response) : result unit :=
  if (400 <=? status_code r) && (status_code r <? 600)
  then Raise (HTTPError (status_code r))
  else Ok tt.

(** One pass of the body of the [for] loop on an already decoded line:
    [inl parts'] to go on with the next line, [inr parts'] after [break]. *)
Definition loop_body (parts : list pyval) (body : pyval)
  : result (list pyval + list pyval) :=
  (has_error <- py_in (lit "error") body ;;
   if has_error : bool then
     (msg <- py_getitem body (lit "error") ;; Raise (Exception_ msg))
   else
     (content_ <- py_get body (lit "response") (PStr []) ;;
      let parts' := parts ++ [content_] in
      done <- py_get body (lit "done") PNone ;;
      if truthy done then Ok (inr parts') else Ok (inl parts')))%res.

(** The [for line in response.iter_lines()] loop. *)
Fixpoint read_lines (w : env) (lines : list (list N)) (parts : list pyval)
  : result (list pyval) :=
  match lines with
  | [] => Ok parts
  | line :: rest =>
      (body <- json_loads w (PBytes line) ;;
       step <- loop_body parts body ;;
       match step with
       | inl parts' => read_lines w rest parts'
       | inr parts' => Ok parts'
       end)%res
  end.

Definition ollama_data (prompt model : pystr) : pyval :=
  PDict [(lit "prompt", PStr prompt); (lit "model", PStr model);
         (lit "stream", PBool true)].

Definition get_completion_ollama (w : env) (prompt model url : pystr) : M pyval :=
  let data := ollama_data prompt model in
  response <- call (EPost url [(lit "json", data)])
                   (requests_post w url [(lit "json", data)]) ;;
  liftR (raise_for_status response) ;;
  parts <- liftR (read_lines w (iter_lines response) []) ;;
  joined <- liftR (py_join parts) ;;
  ret (PStr (strip joined)).

(** ** The remote adapter *)

Definition openai_kwargs (prompt model : pystr) (temperature : Z) : kwargs :=
  [(lit "model", PStr model);
   (lit "response_format", PDict [(lit "type", PStr (lit "json_object"))]);
   (lit "messages",
     PList [PDict [(lit "role", PStr (lit "user")); (lit "content", PStr prompt)]]);
   (lit "temperature", PInt temperature)].

Definition get_completion_openai (w : env) (prompt model : pystr) (temperature : Z)
  : M pyval :=
  response <- call (ECreate (openai_kwargs prompt model temperature))
                   (chat_completions_create w (openai_kwargs prompt model temperature)) ;;
  match choices response with
  | c :: _ => ret (content (message_of c))
  | [] => raise IndexError
  end.

(** ** The orchestrator *)

Definition prompt_head : pystr := lit "
    Your task is to perform the following actions based on the social media comment, delimited by <>:
    
    1 - Generate the sentiment analysis for the comment,         assign a score from 1 to 5, where:
        1 = Very Negative
        2 = Negative
        3 = Neutral
        4 = Positive
        5 = Very Positive
    2 - Generate the offensive language detection for the comment,         assign a score from 1 to 5, where:
        1 = Not Offensive
        2 = Slightly Offensive
        3 = Moderately Offensive
        4 = Offensive
        5 = Highly Offensive
    
    Format your response as a JSON object with the keys     'sentiment_score' and 'offensive_score'. 

    Comment: <".

Definition prompt_tail : pystr := lit ">
    ".

(** The f-string of [sentiment_analyzer]. *)
Definition build_prompt (input : pystr) : pystr :=
  prompt_head ++ input ++ prompt_tail.

(** The sentinel returned when the reply cannot be used. *)
Definition SENTINEL : pyval := PInt (-1).

(** The [try] block that ends [sentiment_analyzer]: decode the reply and
    pick the two scores; any exception gives the sentinel. *)
Definition parse_reply (w : env) (response : pyval) : M pyval :=
  try_except
    (res_dict <- liftR (json_loads w response) ;;
     print (PStr (repeat 45%N 50)) ;;
     sentiment <- liftR (py_getitem res_dict (lit "sentiment_score")) ;;
     offensive <- liftR (py_getitem res_dict (lit "offensive_score")) ;;
     ret (PTuple [sentiment; offensive]))
    (fun _ => ret SENTINEL).

(** The branch on [is_local]: the working text and the adapter chosen. *)
Definition select_backend (w : env) (input : pystr) (is_local : bool)
  : M (pystr * (pystr -> M pyval)) :=
  if is_local then
    input' <- nllb_translate_tr_to_eng w input ;;
    print (PStr (lit "Translated Input: " ++ input')) ;;
    print (PStr (lit "Model: " ++ OLLAMA_MODEL)) ;;
    ret (input', fun p => get_completion_ollama w p OLLAMA_MODEL OLLAMA_URL)
  else
    print (PStr (lit "Model: " ++ OPENAI_MODEL)) ;;
    ret (input, fun p => get_completion_openai w p OPENAI_MODEL 0).

Definition sentiment_analyzer (w : env) (input : pystr) (is_local : bool) : M pyval :=
  print (PStr (lit "Original Input: " ++ input)) ;;
  sel <- select_backend w input is_local ;;
  let '(input', get_completion) := sel in
  let prompt := build_prompt input' in
  response <- get_completion prompt ;;
  print response ;;
  parse_reply w response.

(** ** Vocabulary of the statements: the parse step *)

Definition SENTIMENT_KEY : pystr := lit "sentiment_score".
Definition OFFENSIVE_KEY : pystr := lit "offensive_score".

(** The reply is not JSON text: the decoder raises. *)
Definition not_valid_json (w : env) (reply : pyval) : Prop :=
  exists e, json_loads w reply = Raise e.

(** The reply decodes to an object that lacks one of the two keys. *)
Definition missing_key (w : env) (reply : pyval) : Prop :=
  exists kvs, json_loads w reply = Ok (PDict kvs) /\
    (dict_lookup SENTIMENT_KEY kvs = None \/ dict_lookup OFFENSIVE_KEY kvs = None).

(** The reply decodes to something that is not an object. *)
Definition wrong_shape (w : env) (reply : pyval) : Prop :=
  exists v, json_loads w reply = Ok v /\ forall kvs, v <> PDict kvs.

(** ** A sample environment

    A decoder for a fragment of JSON text and stand-ins for the other
    collaborators, for running the module on concrete inputs.  The
    fragment: objects, arrays, strings with the one-letter escapes,
    integers, [true], [false], [null]; numbers with a fraction or an
    exponent, [\u] escapes and non-ASCII bytes are not part of it and are
    answered like malformed text.  The general statements below hold for
    every environment and do not depend on this one. *)

Module Sample.

Local Open Scope N_scope.

Definition is_ws (c : N) : bool := (c =? 32) || (c =? 9) || (c =? 10) || (c =? 13).

Fixpoint skip_ws (s : list N) : list N :=
  match s with
  | c :: r => if is_ws c then skip_ws r else s
  | [] => []
  end.

Definition is_digit (c : N) : bool := (48 <=? c) && (c <=? 57).

Fixpoint digits (s : list N) (acc : Z) : Z * list N :=
  match s with
  | c :: r =>
      if is_digit c then digits r (10 * acc + Z.of_N (c - 48))%Z else (acc, s)
  | [] => (acc, [])
  end.

Definition starts_fraction (s : list N) : bool :=
  match s with
  | c :: _ => (c =? 46) || (c =? 101) || (c =? 69)
  | [] => false
  end.

(** An integer literal without sign: [0] or a digit sequence not
    starting with [0]. *)
Definition number (s : list N) : option (Z * list N) :=
  match s with
  | c :: r =>
      if c =? 48 then (if starts_fraction r then None else Some (0%Z, r))
      else if is_digit c then
        let '(n, r') := digits s 0%Z in
        if starts_fraction r' then None else Some (n, r')
      else None
  | [] => None
  end.

Definition unescape (c : N) : option N :=
  if c =? 34 then Some 34 else if c =? 92 then Some 92
  else if c =? 47 then Some 47 else if c =? 98 then Some 8
  else if c =? 102 then Some 12 else if c =? 110 then Some 10
  else if c =? 114 then Some 13 else if c =? 116 then Some 9
  else None.

(** The characters of a string literal after its opening quote. *)
Fixpoint string_body (s : list N) (acc : list N) : option (pystr * list N) :=
  match s with
  | [] => None
  | c :: r =>
      if c =? 34 then Some (rev acc, r)
      else if c =? 92 then
        match r with
        | e :: r' =>
            match unescape e with
            | Some x => string_body r' (x :: acc)
            | None => None
            end
        | [] => None
        end
      else if c <? 32 then None
      else string_body r (c :: acc)
  end.

(** Assignment in a [dict]: a key already present keeps its place and
    takes the new value. *)
Fixpoint dict_set (k : pystr) (v : pyval) (d : list (pystr * pyval))
  : list (pystr * pyval) :=
  match d with
  | [] => [(k, v)]
  | (k', v') :: rest =>
      if pystr_eqb k k' then (k', v) :: rest else (k', v') :: dict_set k v rest
  end.

Definition keyword (word : string) (v : pyval) (s : list N) : option (pyval * list N) :=
  if is_prefix (lit word) s then Some (v, skipn (String.length word) s) else None.

Fixpoint value (fuel : nat) (s : list N) {struct fuel} : option (pyval * list N) :=
  match fuel with
  | O => None
  | S f =>
      match skip_ws s with
      | [] => None
      | c :: r =>
          if c =? 34 then
            match string_body r [] with
            | Some (str, r') => Some (PStr str, r')
            | None => None
            end
          else if c =? 91 then
            match skip_ws r with
            | c' :: r' => if c' =? 93 then Some (PList [], r') else elements f r []
            | [] => None
            end
          else if c =? 123 then
            match skip_ws r with
            | c' :: r' => if c' =? 125 then Some (PDict [], r') else members f r []
            | [] => None
            end
          else if c =? 45 then
            match number r with
            | Some (n, r') => Some (PInt (- n), r')
            | None => None
            end
          else if is_digit c then
            match number (c :: r) with
            | Some (n, r') => Some (PInt n, r')
            | None => None
            end
          else if c =? 116 then keyword "true" (PBool true) (c :: r)
          else if c =? 102 then keyword "false" (PBool false) (c :: r)
          else if c =? 110 then keyword "null" PNone (c :: r)
          else None
      end
  end
with elements (fuel : nat) (s : list N) (acc : list pyval) {struct fuel}
  : option (pyval * list N) :=
  match fuel with
  | O => None
  | S f =>
      match value f s with
      | Some (v, r) =>
          match skip_ws r with
          | c :: r' =>
              if c =? 44 then elements f r' (v :: acc)
              else if c =? 93 then Some (PList (rev (v :: acc)), r')
              else None
          | [] => None
          end
      | None => None
      end
  end
with members (fuel : nat) (s : list N) (acc : list (pystr * pyval)) {struct fuel}
  : option (pyval * list N) :=
  match fuel with
  | O => None
  | S f =>
      match skip_ws s with
      | q :: r =>
          if q =? 34 then
            match string_body r [] with
            | Some (k, r1) =>
                match skip_ws r1 with
                | colon :: r2 =>
                    if colon =? 58 then
                      match value f r2 with
                      | Some (v, r3) =>
                          match skip_ws r3 with
                          | c :: r4 =>
                              if c =? 44 then members f r4 (dict_set k v acc)
                              else if c =? 125 then Some (PDict (dict_set k v acc), r4)
                              else None
                          | [] => None
                          end
                      | None => None
                      end
                    else None
                | [] => None
                end
            | None => None
            end
          else None
      | [] => None
      end
  end.

Definition decode_text (s : list N) : result pyval :=
  match value (2 * List.length s + 2) s with
  | Some (v, r) =>
      match skip_ws r with
      | [] => Ok v
      | _ :: _ => Raise JSONDecodeError
      end
  | None => Raise JSONDecodeError
  end.

Definition loads (v : pyval) : result pyval :=
  match v with
  | PStr s => decode_text s
  | PBytes b => if forallb (fun c => c <? 128) b then decode_text b
                else Raise JSONDecodeError
  | _ => Raise TypeError
  end.

(** An environment from what the three services answer: the strings the
    translation decodes to, the HTTP exchange, the hosted completion. *)
Definition world (decoded : result (list pystr)) (post : result response)
    (create : result chat_completion) : env :=
  {| tokenizer := fun article => Ok [map Z.of_N article];
     lang_code_to_id := [(lit "eng_Latn", 256047%Z); (lit "tur_Latn", 256184%Z)];
     model_generate := fun inputs bos max_length =>
       Ok (map (fun ids => bos :: firstn (Z.to_nat max_length - 1) ids) inputs);
     batch_decode := fun _ => decoded;
     requests_post := fun _ _ => post;
     chat_completions_create := fun _ => create;
     json_loads := loads |}.

(** JSON text written with an apostrophe wherever the text has a double
    quote. *)
Definition jlit (s : string) : list N :=
  map (fun c => if c =? 39 then 34 else c) (lit s).

(** A 200 response whose body is the given lines. *)
Definition stream (lines : list string) : result response :=
  Ok {| status_code := 200; iter_lines := map jlit lines |}.

(** A completion with one choice holding the given text. *)
Definition completion (text : string) : result chat_completion :=
  Ok {| choices := [ {| message_of := {| content := PStr (jlit text) |} |} ] |}.

Definition offline {A} : result A := Raise (LibraryError "ConnectionError").

End Sample.

(** ** Vocabulary of the statements: the orchestrator *)

(** The adapter the flag selects, with the arguments the orchestrator
    leaves to their defaults. *)
Definition selected_adapter (w : env) (is_local : bool) (prompt : pystr) : M pyval :=
  if is_local then get_completion_ollama w prompt OLLAMA_MODEL OLLAMA_URL
  else get_completion_openai w prompt OPENAI_MODEL 0.

(** The text the prompt is built from: the translation when the local
    backend is selected, the input itself otherwise. *)
Definition working_text (w : env) (input : pystr) (is_local : bool) : result pystr :=
  if is_local then outcome (nllb_translate_tr_to_eng w input) else Ok input.

(** A caller-facing result as the data model describes it: two integers
    in 1..5, or the sentinel. *)
Definition score_result (r : pyval) : Prop :=
  r = SENTINEL \/
  exists a b, r = PTuple [PInt a; PInt b] /\ 1 <= a <= 5 /\ 1 <= b <= 5.

Definition is_print (ev : event) : bool :=
  match ev with EPrint _ => true | _ => false end.

Definition is_post (ev : event) : bool :=
  match ev with EPost _ _ => true | _ => false end.

Definition is_create (ev : event) : bool :=
  match ev with ECreate _ => true | _ => false end.

Definition is_translator_event (ev : event) : bool :=
  match ev with
  | ETokenizer _ | EGenerate _ _ _ | EBatchDecode _ => true
  | _ => false
  end.

(** The calls to collaborators in a trace: everything but the prints. *)
Definition calls (t : list event) : list event :=
  filter (fun ev => negb (is_print ev)) t.

Definition count (p : event -> bool) (t : list event) : nat :=
  List.length (filter p t).

(** A trace in which some HTTP request was given a [timeout] argument. *)
Definition imposes_timeout (t : list event) : Prop :=
  exists url kw v, In (EPost url kw) t /\ dict_lookup (lit "timeout") kw = Some v.

(** ** Vocabulary of the statements: stream chunks *)

(** A chunk: the object one line of the stream decodes to. *)
Definition chunk := list (pystr * pyval).

(** The value under [error], when the chunk carries one. *)
Definition error_of (c : chunk) : option pyval := dict_lookup (lit "error") c.

(** The response fragment, the empty string when absent. *)
Definition fragment (c : chunk) : pyval :=
  match dict_lookup (lit "response") c with
  | Some v => v
  | None => PStr []
  end.

(** Whether the chunk has a true [done] field. *)
Definition done_flag (c : chunk) : bool :=
  match dict_lookup (lit "done") c with
  | Some v => truthy v
  | None => false
  end.

(** The fragment is a string, as the wire protocol has it. *)
Definition has_text (c : chunk) : Prop := exists s, fragment c = PStr s.

Definition text_of (c : chunk) : pystr :=
  match fragment c with
  | PStr s => s
  | _ => []
  end.

(** The chunks up to and including the first one whose [done] is true;
    all of them when there is none. *)
Fixpoint upto_done (cs : list chunk) : list chunk :=
  match cs with
  | [] => []
  | c :: rest => if done_flag c then [c] else c :: upto_done rest
  end.

(** The fragments of these chunks, concatenated in arrival order and
    stripped. *)
Definition reassembled (cs : list chunk) : pystr :=
  strip (List.concat (map text_of (upto_done cs))).

(** The line decodes to the chunk. *)
Definition decodes (w : env) (line : list N) (c : chunk) : Prop :=
  json_loads w (PBytes line) = Ok (PDict c).

(** The line decodes to a chunk after which the loop goes on: no [error]
    field, no true [done] field. *)
Definition continues (w : env) (line : list N) (c : chunk) : Prop :=
  decodes w line c /\ error_of c = None /\ done_flag c = false.

(** The daemon answers the adapter's request with a status that is not
    an error and a body made of the given lines. *)
Definition delivers (w : env) (url prompt model : pystr) (lines : list (list N))
  : Prop :=
  exists r, requests_post w url [(lit "json", ollama_data prompt model)] = Ok r /\
            raise_for_status r = Ok tt /\ iter_lines r = lines.

(** The three chunks
    [{"response":"Hel","done":false}], [{"response":"lo","done":false}],
    [{"response":"","done":true}]. *)
Definition hello_chunks : list chunk :=
  [ [(lit "response", PStr (lit "Hel")); (lit "done", PBool false)];
    [(lit "response", PStr (lit "lo")); (lit "done", PBool false)];
    [(lit "response", PStr (lit "")); (lit "done", PBool true)] ].

(** ** The second translator

    [mbart_translate_tr_to_eng] loads its model and its tokenizer at every
    call.  The hub the two are loaded from, and the objects it hands
    back, are the collaborators of this function; its calls are recorded
    in a trace of their own. *)

(** A loaded model: its [generate], called on the inputs and the forced
    first token. *)
Record mbart_model := mkMbartModel {
  mbart_generate : batch -> Z -> result batch
}.

(** A loaded tokenizer: the call on a text under the source language
    set on it, the table of language codes, [batch_decode]. *)
Record mbart_tokenizer := mkMbartTokenizer {
  mbart_encode : pystr -> pystr -> result batch;
  mbart_lang_code_to_id : list (pystr * Z);
  mbart_batch_decode : batch -> result (list pystr)
}.

Record hub := mkHub {
  model_from_pretrained : pystr -> result mbart_model;
  tokenizer_from_pretrained : pystr -> result mbart_tokenizer
}.

Inductive mbart_event :=
| MLoadModel (name : pystr)
| MLoadTokenizer (name : pystr)
| MTokenizer (src_lang article : pystr)
| MGenerate (inputs : batch) (forced_bos_token_id : Z)
| MBatchDecode (tokens : batch).

Definition MBART_NAME : pystr := lit "facebook/mbart-large-50-many-to-many-mmt".

Definition mbart_translate_tr_to_eng (h : hub) (article : pystr)
  : result pystr * list mbart_event :=
  match model_from_pretrained h MBART_NAME with
  | Raise e => (Raise e, [MLoadModel MBART_NAME])
  | Ok model =>
  match tokenizer_from_pretrained h MBART_NAME with
  | Raise e => (Raise e, [MLoadModel MBART_NAME; MLoadTokenizer MBART_NAME])
  | Ok tok =>
  let src_lang := lit "tr_TR" in
  let loaded := [MLoadModel MBART_NAME; MLoadTokenizer MBART_NAME] in
  match mbart_encode tok src_lang article with
  | Raise e => (Raise e, loaded ++ [MTokenizer src_lang article])
  | Ok inputs =>
  match id_lookup (lit "en_XX") (mbart_lang_code_to_id tok) with
  | None => (Raise (KeyError (lit "en_XX")), loaded ++ [MTokenizer src_lang article])
  | Some bos =>
  match mbart_generate model inputs bos with
  | Raise e => (Raise e, loaded ++ [MTokenizer src_lang article; MGenerate inputs bos])
  | Ok generated_tokens =>
  let seen := loaded ++ [MTokenizer src_lang article; MGenerate inputs bos;
                         MBatchDecode generated_tokens] in
  match mbart_batch_decode tok generated_tokens with
  | Raise e => (Raise e, seen)
  | Ok [] => (Raise IndexError, seen)
  | Ok (eng :: _) => (Ok eng, seen)
  end end end end end end.

(** ** Vocabulary of the further statements *)

(** A string that neither starts nor ends with whitespace. *)
Definition stripped (s : pystr) : Prop :=
  (forall c r, s = c :: r -> is_space c = false) /\
  (forall c r, s = r ++ [c] -> is_space c = false).

(** The row of dashes printed once the reply has been decoded. *)
Definition DASHES : pyval := PStr (repeat 45%N 50).

(** What the orchestrator prints and calls once the adapter has been
    chosen: the adapter's call, then the reply it returned, then the row
    of dashes when the reply decodes. *)
Definition reply_events (w : env) (is_local : bool) (text : pystr) : list event :=
  trace (selected_adapter w is_local (build_prompt text)) ++
  match outcome (selected_adapter w is_local (build_prompt text)) with
  | Ok reply =>
      EPrint reply ::
      match json_loads w reply with
      | Ok _ => [EPrint DASHES]
      | Raise _ => []
      end
  | Raise _ => []
  end.


(** A hub for concrete runs: the model generates the given tokens, the
    tokenizer decodes them to the given strings. *)
Definition sample_hub (decoded : result (list pystr)) : hub :=
  {| model_from_pretrained := fun _ =>
       Ok {| mbart_generate := fun inputs bos => Ok (map (cons bos) inputs) |};
     tokenizer_from_pretrained := fun _ =>
       Ok {| mbart_encode := fun _ article => Ok [map Z.of_N article];
             mbart_lang_code_to_id := [(lit "en_XX", 250004); (lit "tr_TR", 250023)];
             mbart_batch_decode := fun _ => decoded |} |}.

(** * Properties *)

(** ** Laws of the computation type *)

Lemma outcome_bind {A B} (m : M A) (k : A -> M B) :
  outcome (bind m k) =
  match outcome m with
  | Ok a => outcome (k a)
  | Raise e => Raise e
  end.
Proof.
  destruct m as [[a | e] t]; simpl; [destruct (k a); reflexivity | reflexivity].
Qed.

Lemma trace_bind {A B} (m : M A) (k : A -> M B) :
  trace (bind m k) =
  match outcome m with
  | Ok a => trace m ++ trace (k a)
  | Raise _ => trace m
  end.
Proof.
  destruct m as [[a | e] t]; simpl; [destruct (k a); reflexivity | reflexivity].
Qed.

Lemma outcome_try_except {A} (m : M A) (h : exn -> M A) :
  outcome (try_except m h) =
  match outcome m with
  | Ok a => Ok a
  | Raise e => outcome (h e)
  end.
Proof.
  destruct m as [[a | e] t]; simpl; [reflexivity | destruct (h e); reflexivity].
Qed.

Lemma pystr_eqb_refl (s : pystr) : pystr_eqb s s = true.
Proof.
  induction s as [| c s IH]; simpl; [reflexivity |].
  now rewrite N.eqb_refl, IH.
Qed.

Lemma pystr_eqb_eq (a b : pystr) : pystr_eqb a b = true <-> a = b.
Proof.
  split; [| intros ->; apply pystr_eqb_refl].
  revert b; induction a as [| x a IH]; intros [| y b]; simpl; try discriminate; auto.
  intros H; apply andb_true_iff in H as [Hx Hr].
  apply N.eqb_eq in Hx; subst; f_equal; auto.
Qed.

(** ** The parse step *)

(** What [parse_reply] computes, case by case. *)
Lemma outcome_parse_reply (w : env) (reply : pyval) :
  outcome (parse_reply w reply) =
  match json_loads w reply with
  | Ok (PDict kvs) =>
      match dict_lookup SENTIMENT_KEY kvs, dict_lookup OFFENSIVE_KEY kvs with
      | Some a, Some b => Ok (PTuple [a; b])
      | _, _ => Ok SENTINEL
      end
  | _ => Ok SENTINEL
  end.
Proof.
  unfold parse_reply, try_except, bind, liftR, print, call, ret, outcome, py_getitem.
  fold SENTIMENT_KEY OFFENSIVE_KEY.
  destruct (json_loads w reply) as [v | e]; [| reflexivity].
  destruct v; try reflexivity.
  destruct (dict_lookup SENTIMENT_KEY kvs) as [a |]; [| reflexivity].
  destruct (dict_lookup OFFENSIVE_KEY kvs) as [b |]; reflexivity.
Qed.

(** The parse step never raises. *)
Lemma parse_reply_total (w : env) (reply : pyval) :
  exists v, outcome (parse_reply w reply) = Ok v.
Proof.
  rewrite outcome_parse_reply.
  destruct (json_loads w reply) as [v | e]; [| eauto].
  destruct v; eauto.
  destruct (dict_lookup SENTIMENT_KEY kvs); eauto.
  destruct (dict_lookup OFFENSIVE_KEY kvs); eauto.
Qed.

(** C2. Whenever the reply is not JSON text, or decodes to an object
    lacking one of the keys [sentiment_score] and [offensive_score], or
    decodes to a value from which a key cannot be extracted, the parse
    step returns the sentinel [-1]; and for every reply whatsoever the
    parse step returns a value: it never raises. *)
Theorem parse_reply_fallback (w : env) (reply : pyval) :
  (not_valid_json w reply \/ missing_key w reply \/ wrong_shape w reply ->
   outcome (parse_reply w reply) = Ok SENTINEL) /\
  (exists v, outcome (parse_reply w reply) = Ok v).
Proof.
  split; [| apply parse_reply_total].
  rewrite outcome_parse_reply.
  intros [[e He] | [(kvs & Hd & Hk) | (v & Hd & Hv)]]; rewrite ?He, ?Hd.
  - reflexivity.
  - destruct Hk as [-> | Hk]; [reflexivity |].
    rewrite Hk. destruct (dict_lookup SENTIMENT_KEY kvs); reflexivity.
  - destruct v; try reflexivity. exfalso. eapply Hv. reflexivity.
Qed.

Lemma parse_reply_fallback_witness :
  let w := Sample.world Sample.offline Sample.offline Sample.offline in
  (not_valid_json w (PStr (Sample.jlit "not json")) /\
   outcome (parse_reply w (PStr (Sample.jlit "not json"))) = Ok SENTINEL) /\
  (missing_key w (PStr (Sample.jlit "{'sentiment_score':3}")) /\
   outcome (parse_reply w (PStr (Sample.jlit "{'sentiment_score':3}"))) = Ok SENTINEL) /\
  (wrong_shape w (PStr (Sample.jlit "[4, 2]")) /\
   outcome (parse_reply w (PStr (Sample.jlit "[4, 2]"))) = Ok SENTINEL).
Proof.
  intros w.
  assert (H1 : not_valid_json w (PStr (Sample.jlit "not json"))).
  { exists JSONDecodeError. vm_compute. reflexivity. }
  assert (H2 : missing_key w (PStr (Sample.jlit "{'sentiment_score':3}"))).
  { exists [(SENTIMENT_KEY, PInt 3)]. split; [| right]; vm_compute; reflexivity. }
  assert (H3 : wrong_shape w (PStr (Sample.jlit "[4, 2]"))).
  { exists (PList [PInt 4; PInt 2]). split; [vm_compute; reflexivity | discriminate]. }
  split; [| split]; (split; [assumption |]).
  - apply (proj1 (parse_reply_fallback w _)). left. exact H1.
  - apply (proj1 (parse_reply_fallback w _)). right. left. exact H2.
  - apply (proj1 (parse_reply_fallback w _)). right. right. exact H3.
Defined.

(** C3. Whenever the reply string decodes to an object holding integers
    under both keys [sentiment_score] and [offensive_score], the parse
    step returns exactly the pair of these two integers, whatever their
    values: no range is checked. *)
Theorem parse_reply_identity (w : env) (s : pystr) (kvs : list (pystr * pyval))
    (a b : Z) :
  json_loads w (PStr s) = Ok (PDict kvs) ->
  dict_lookup SENTIMENT_KEY kvs = Some (PInt a) ->
  dict_lookup OFFENSIVE_KEY kvs = Some (PInt b) ->
  outcome (parse_reply w (PStr s)) = Ok (PTuple [PInt a; PInt b]).
Proof.
  intros Hd Ha Hb. rewrite outcome_parse_reply, Hd, Ha, Hb. reflexivity.
Qed.

Lemma parse_reply_identity_witness :
  let w := Sample.world Sample.offline Sample.offline Sample.offline in
  let s := Sample.jlit "{'offensive_score': -2, 'sentiment_score': 900}" in
  let kvs := [(OFFENSIVE_KEY, PInt (-2)); (SENTIMENT_KEY, PInt 900)] in
  json_loads w (PStr s) = Ok (PDict kvs) /\
  dict_lookup SENTIMENT_KEY kvs = Some (PInt 900) /\
  dict_lookup OFFENSIVE_KEY kvs = Some (PInt (-2)) /\
  outcome (parse_reply w (PStr s)) = Ok (PTuple [PInt 900; PInt (-2)]).
Proof.
  intros w s kvs.
  assert (Hd : json_loads w (PStr s) = Ok (PDict kvs)) by (vm_compute; reflexivity).
  assert (Ha : dict_lookup SENTIMENT_KEY kvs = Some (PInt 900)) by (vm_compute; reflexivity).
  assert (Hb : dict_lookup OFFENSIVE_KEY kvs = Some (PInt (-2))) by (vm_compute; reflexivity).
  split; [exact Hd | split; [exact Ha | split; [exact Hb |]]].
  exact (parse_reply_identity w s kvs 900 (-2) Hd Ha Hb).
Defined.

(** ** The adapters, as seen by the orchestrator *)

(** The remote adapter causes one event, whatever the service answers. *)
Lemma trace_get_completion_openai (w : env) (prompt model : pystr) (temperature : Z) :
  trace (get_completion_openai w prompt model temperature)
  = [ECreate (openai_kwargs prompt model temperature)].
Proof.
  unfold get_completion_openai, bind, call, ret, raise, trace.
  destruct (chat_completions_create w _) as [r | e]; [| reflexivity].
  destruct (choices r); reflexivity.
Qed.

Lemma outcome_get_completion_openai (w : env) (prompt model : pystr) (temperature : Z) :
  outcome (get_completion_openai w prompt model temperature) =
  match chat_completions_create w (openai_kwargs prompt model temperature) with
  | Ok r =>
      match choices r with
      | c :: _ => Ok (content (message_of c))
      | [] => Raise IndexError
      end
  | Raise e => Raise e
  end.
Proof.
  unfold get_completion_openai, bind, call, ret, raise, outcome.
  destruct (chat_completions_create w _) as [r | e]; [| reflexivity].
  destruct (choices r); reflexivity.
Qed.

(** The local adapter causes one event, whatever the daemon answers. *)
Lemma trace_get_completion_ollama (w : env) (prompt model url : pystr) :
  trace (get_completion_ollama w prompt model url)
  = [EPost url [(lit "json", ollama_data prompt model)]].
Proof.
  unfold get_completion_ollama, bind, call, liftR, ret, trace.
  destruct (requests_post w url _) as [r | e]; [| reflexivity].
  destruct (raise_for_status r) as [[] | e]; [| reflexivity].
  destruct (read_lines w (iter_lines r) []) as [parts | e]; [| reflexivity].
  destruct (py_join parts) as [joined | e]; reflexivity.
Qed.

Lemma outcome_get_completion_ollama (w : env) (prompt model url : pystr) :
  outcome (get_completion_ollama w prompt model url) =
  (r <- requests_post w url [(lit "json", ollama_data prompt model)] ;;
   _ <- raise_for_status r ;;
   parts <- read_lines w (iter_lines r) [] ;;
   joined <- py_join parts ;;
   Ok (PStr (strip joined)))%res.
Proof.
  unfold get_completion_ollama, bind, call, liftR, ret, outcome, rbind.
  destruct (requests_post w url _) as [r | e]; [| reflexivity].
  destruct (raise_for_status r) as [[] | e]; [| reflexivity].
  destruct (read_lines w (iter_lines r) []) as [parts | e]; [| reflexivity].
  destruct (py_join parts) as [joined | e]; reflexivity.
Qed.

Lemma trace_selected_adapter (w : env) (is_local : bool) (prompt : pystr) :
  trace (selected_adapter w is_local prompt) =
  if is_local then [EPost OLLAMA_URL [(lit "json", ollama_data prompt OLLAMA_MODEL)]]
  else [ECreate (openai_kwargs prompt OPENAI_MODEL 0)].
Proof.
  destruct is_local; [apply trace_get_completion_ollama | apply trace_get_completion_openai].
Qed.

(** The translator's events: the tokenizer call on the article first,
    then only calls to the model and the tokenizer. *)
Lemma trace_nllb_translate_tr_to_eng (w : env) (article : pystr) :
  exists t, trace (nllb_translate_tr_to_eng w article) = ETokenizer article :: t /\
            forallb is_translator_event t = true.
Proof.
  unfold nllb_translate_tr_to_eng, bind, call, liftR, ret, raise, trace.
  destruct (tokenizer w article) as [inputs | e]; [| eexists; split; reflexivity].
  destruct (id_lookup _ _) as [bos |]; [| eexists; split; reflexivity].
  destruct (model_generate w inputs bos 30) as [tokens | e]; [| eexists; split; reflexivity].
  destruct (batch_decode w tokens) as [[| eng rest] | e]; eexists; split; reflexivity.
Qed.

Lemma calls_translator (t : list event) :
  forallb is_translator_event t = true -> calls t = t.
Proof.
  induction t as [| ev t IH]; simpl; [reflexivity |].
  intros H. apply andb_true_iff in H as [Hev Ht].
  destruct ev; try discriminate; simpl; now rewrite IH.
Qed.

Lemma calls_app (t u : list event) : calls (t ++ u) = calls t ++ calls u.
Proof. apply filter_app. Qed.

(** ** The orchestrator *)

(** The orchestrator's outcome: a failure of the translator or of the
    selected adapter as it is, and otherwise what the parse step gives on
    the adapter's reply. *)
Lemma outcome_sentiment_analyzer (w : env) (input : pystr) (is_local : bool) :
  outcome (sentiment_analyzer w input is_local) =
  (text <- working_text w input is_local ;;
   reply <- outcome (selected_adapter w is_local (build_prompt text)) ;;
   outcome (parse_reply w reply))%res.
Proof.
  unfold sentiment_analyzer, select_backend, working_text, selected_adapter.
  destruct is_local.
  - unfold bind, print, call, ret, outcome, rbind.
    destruct (nllb_translate_tr_to_eng w input) as [[eng | e] t1]; [| reflexivity].
    cbn [fst].
    destruct (get_completion_ollama w (build_prompt eng) OLLAMA_MODEL OLLAMA_URL)
      as [[reply | e] t2]; [| reflexivity].
    cbn [fst]. destruct (parse_reply w reply) as [r t3]. reflexivity.
  - unfold bind, print, call, ret, outcome, rbind.
    destruct (get_completion_openai w (build_prompt input) OPENAI_MODEL 0)
      as [[reply | e] t2]; [| reflexivity].
    cbn [fst]. destruct (parse_reply w reply) as [r t3]. reflexivity.
Qed.

Lemma calls_print (v : pyval) (t : list event) : calls (EPrint v :: t) = calls t.
Proof. reflexivity. Qed.

Lemma calls_nil : calls [] = [].
Proof. reflexivity. Qed.

Lemma calls_call (ev : event) (t : list event) :
  is_print ev = false -> calls (ev :: t) = ev :: calls t.
Proof. intros H. unfold calls. cbn [filter]. now rewrite H. Qed.

Ltac calls_norm :=
  repeat first
    [ rewrite calls_print
    | rewrite calls_app
    | rewrite calls_nil
    | rewrite calls_call by reflexivity
    | rewrite app_nil_r ].

Lemma calls_parse_reply (w : env) (reply : pyval) :
  calls (trace (parse_reply w reply)) = [].
Proof.
  unfold parse_reply, try_except, bind, liftR, print, call, ret, trace.
  destruct (json_loads w reply) as [v | e]; [| reflexivity].
  cbn [snd app].
  destruct (py_getitem v (lit "sentiment_score")); [| reflexivity].
  destruct (py_getitem v (lit "offensive_score")); reflexivity.
Qed.

(** The calls the orchestrator makes: the translator's when the local
    backend is selected, then one call of the selected adapter unless the
    translator failed. *)
Lemma calls_sentiment_analyzer (w : env) (input : pystr) (is_local : bool) :
  calls (trace (sentiment_analyzer w input is_local)) =
  (if is_local then trace (nllb_translate_tr_to_eng w input) else []) ++
  match working_text w input is_local with
  | Ok text => trace (selected_adapter w is_local (build_prompt text))
  | Raise _ => []
  end.
Proof.
  unfold working_text, sentiment_analyzer, select_backend, selected_adapter.
  destruct is_local.
  - destruct (trace_nllb_translate_tr_to_eng w input) as (t & Ht & Hall).
    apply calls_translator in Hall.
    pose proof (trace_get_completion_ollama w) as Ho.
    unfold bind, print, call, ret, outcome, trace in *.
    destruct (nllb_translate_tr_to_eng w input) as [[eng | e] t1];
      cbn [fst snd] in *; subst t1.
    + specialize (Ho (build_prompt eng) OLLAMA_MODEL OLLAMA_URL).
      destruct (get_completion_ollama w (build_prompt eng) OLLAMA_MODEL OLLAMA_URL)
        as [[reply | e] t2]; cbn [fst snd] in *; subst t2.
      * pose proof (calls_parse_reply w reply) as Hp. unfold trace in Hp.
        destruct (parse_reply w reply) as [r t3]. cbn [fst snd app] in *.
        calls_norm. rewrite Hp, Hall. reflexivity.
      * cbn [fst snd app]. calls_norm. rewrite Hall. reflexivity.
    + cbn [fst snd app]. calls_norm. rewrite Hall. reflexivity.
  - pose proof (trace_get_completion_openai w (build_prompt input) OPENAI_MODEL 0) as Ho.
    unfold bind, print, call, ret, outcome, trace in *.
    destruct (get_completion_openai w (build_prompt input) OPENAI_MODEL 0)
      as [[reply | e] t2]; cbn [fst snd] in *; subst t2.
    + pose proof (calls_parse_reply w reply) as Hp. unfold trace in Hp.
      destruct (parse_reply w reply) as [r t3]. cbn [fst snd app] in *.
      calls_norm. rewrite Hp. reflexivity.
    + cbn [fst snd app]. calls_norm. reflexivity.
Qed.

Lemma filter_calls (p : event -> bool) (t : list event) :
  (forall ev, p ev = true -> is_print ev = false) ->
  filter p (calls t) = filter p t.
Proof.
  intros Hp. induction t as [| ev t IH]; [reflexivity |].
  unfold calls in *. cbn [filter].
  destruct (is_print ev) eqn:Hev; cbn [negb filter].
  - destruct (p ev) eqn:Hpe; [apply Hp in Hpe; congruence | exact IH].
  - destruct (p ev); now rewrite IH.
Qed.

Lemma filter_none (p : event -> bool) (t : list event) :
  forallb is_translator_event t = true ->
  (forall ev, p ev = true -> is_translator_event ev = false) ->
  filter p t = [].
Proof.
  intros Ht Hp. induction t as [| ev t IH]; [reflexivity |].
  cbn [forallb] in Ht. apply andb_true_iff in Ht as [Hev Ht].
  cbn [filter]. destruct (p ev) eqn:Hpe; [apply Hp in Hpe; congruence | auto].
Qed.

(** How often each adapter is called in one run of the orchestrator. *)
Lemma adapter_calls (w : env) (input : pystr) (is_local : bool) :
  let t := trace (sentiment_analyzer w input is_local) in
  (count is_post t + count is_create t <= 1)%nat /\
  count (if is_local then is_create else is_post) t = 0%nat.
Proof.
  intros t. subst t. unfold count.
  rewrite <- (filter_calls is_post), <- (filter_calls is_create),
    <- (filter_calls (if is_local then is_create else is_post)), calls_sentiment_analyzer;
    try (intros []; try destruct is_local; cbn; congruence).
  rewrite !filter_app, !length_app.
  assert (Htr : forall p, (forall ev, p ev = true -> is_translator_event ev = false) ->
            filter p (if is_local then trace (nllb_translate_tr_to_eng w input) else []) = []).
  { intros p Hp. destruct is_local; [| reflexivity].
    destruct (trace_nllb_translate_tr_to_eng w input) as (t & -> & Hall).
    apply filter_none; [exact Hall | exact Hp]. }
  rewrite (Htr is_post), (Htr is_create), (Htr (if is_local then is_create else is_post));
    try (intros []; try destruct is_local; cbn; congruence).
  destruct (working_text w input is_local) as [text | e]; [| cbn; lia].
  rewrite trace_selected_adapter. destruct is_local; cbn; lia.
Qed.

(** C1 (as amended). Whenever the orchestrator returns, it returns the
    sentinel [-1] or the pair of the two values the decoded reply of the
    selected adapter holds under [sentiment_score] and [offensive_score];
    these values are handed over as decoded, neither their type nor their
    range being checked. *)
Theorem sentiment_analyzer_result (w : env) (input : pystr) (is_local : bool)
    (r : pyval) :
  outcome (sentiment_analyzer w input is_local) = Ok r ->
  r = SENTINEL \/
  exists text reply kvs a b,
    working_text w input is_local = Ok text /\
    outcome (selected_adapter w is_local (build_prompt text)) = Ok reply /\
    json_loads w reply = Ok (PDict kvs) /\
    dict_lookup SENTIMENT_KEY kvs = Some a /\
    dict_lookup OFFENSIVE_KEY kvs = Some b /\
    r = PTuple [a; b].
Proof.
  rewrite outcome_sentiment_analyzer. unfold rbind.
  destruct (working_text w input is_local) as [text | e]; [| discriminate].
  destruct (outcome (selected_adapter w is_local (build_prompt text)))
    as [reply | e] eqn:Hreply; [| discriminate].
  rewrite outcome_parse_reply.
  destruct (json_loads w reply) as [v | e] eqn:Hv; [| intros [= <-]; now left].
  destruct v; try (intros [= <-]; now left).
  destruct (dict_lookup SENTIMENT_KEY kvs) as [a |] eqn:Ha; [| intros [= <-]; now left].
  destruct (dict_lookup OFFENSIVE_KEY kvs) as [b |] eqn:Hb; [| intros [= <-]; now left].
  intros [= <-]. right. exists text, reply, kvs, a, b. auto 10.
Qed.

(** C1, as stated, fails: the remote backend answers
    [{"sentiment_score":7,"offensive_score":0}] and the orchestrator
    returns the pair (7, 0), which is neither the sentinel nor a pair of
    integers in 1..5. *)
Lemma sentiment_analyzer_out_of_range :
  let w := Sample.world Sample.offline Sample.offline
             (Sample.completion "{'sentiment_score':7,'offensive_score':0}") in
  outcome (sentiment_analyzer w (lit "Bu film harika") false)
    = Ok (PTuple [PInt 7; PInt 0]) /\
  ~ score_result (PTuple [PInt 7; PInt 0]).
Proof.
  split; [vm_compute; reflexivity |].
  intros [H | (a & b & H & Ha & Hb)]; [discriminate |].
  injection H as <- <-. lia.
Qed.

Lemma sentiment_analyzer_result_witness :
  let w := Sample.world Sample.offline Sample.offline
             (Sample.completion "{'sentiment_score':1,'offensive_score':1}") in
  let input := lit "Bu film berbat" in
  outcome (sentiment_analyzer w input false) = Ok (PTuple [PInt 1; PInt 1]) /\
  (PTuple [PInt 1; PInt 1] = SENTINEL \/
   exists text reply kvs a b,
     working_text w input false = Ok text /\
     outcome (selected_adapter w false (build_prompt text)) = Ok reply /\
     json_loads w reply = Ok (PDict kvs) /\
     dict_lookup SENTIMENT_KEY kvs = Some a /\
     dict_lookup OFFENSIVE_KEY kvs = Some b /\
     PTuple [PInt 1; PInt 1] = PTuple [a; b]).
Proof.
  intros w input.
  assert (H : outcome (sentiment_analyzer w input false) = Ok (PTuple [PInt 1; PInt 1]))
    by (vm_compute; reflexivity).
  split; [exact H |].
  exact (sentiment_analyzer_result w input false _ H).
Defined.

(** Two runs end to end with the remote backend: on the comment
    "Bu ürün çok kötü" answered by [{"sentiment_score":1,"offensive_score":1}]
    the orchestrator returns (1, 1); answered by a sentence that is not JSON
    it returns [-1]. *)
Example analyze_scored :
  outcome (sentiment_analyzer
             (Sample.world Sample.offline Sample.offline
                (Sample.completion "{'sentiment_score':1,'offensive_score':1}"))
             (lit "Bu " ++ [252; 114; 252; 110; 32; 231; 111; 107; 32; 107; 246; 116; 252]%N)
             false)
  = Ok (PTuple [PInt 1; PInt 1]).
Proof. vm_compute. reflexivity. Qed.

Example analyze_refused :
  outcome (sentiment_analyzer
             (Sample.world Sample.offline Sample.offline
                (Sample.completion "I cannot help with that."))
             (lit "Bu " ++ [252; 114; 252; 110; 32; 231; 111; 107; 32; 107; 246; 116; 252]%N)
             false)
  = Ok SENTINEL.
Proof. vm_compute. reflexivity. Qed.

Lemma is_substring_here (p s : pystr) :
  is_prefix p s = true -> is_substring p s = true.
Proof.
  intros H. destruct s; cbn [is_substring]; now rewrite H.
Qed.

Lemma is_prefix_self (p rest : pystr) : is_prefix p (p ++ rest) = true.
Proof.
  induction p as [| x p IH]; [reflexivity |].
  cbn [app is_prefix]. now rewrite N.eqb_refl, IH.
Qed.

Lemma is_substring_later (p a b : pystr) :
  is_substring p b = true -> is_substring p (a ++ b) = true.
Proof.
  intros H. induction a as [| y a IH]; [exact H |].
  cbn [app is_substring]. rewrite IH. apply orb_true_r.
Qed.

(** C6. With [is_local] true, the calls the orchestrator makes are those
    of the translator, starting with the tokenizer on the input text,
    followed, when the translation succeeds, by exactly one request of the
    local adapter, whose JSON body carries under [prompt] the template
    filled with the translated text, under [model] the local model and
    under [stream] true; the remote adapter is not called.  With
    [is_local] false, the only call is one request of the remote adapter,
    whose single message, of role [user], has for content the template
    filled with the original text: neither the translator nor the local
    adapter is called.  The template filled with a text holds that text
    as it is. *)
Theorem dispatch_by_flag (w : env) (input : pystr) :
  (calls (trace (sentiment_analyzer w input true)) =
     trace (nllb_translate_tr_to_eng w input) ++
     match outcome (nllb_translate_tr_to_eng w input) with
     | Ok eng =>
         [EPost OLLAMA_URL
            [(lit "json",
              PDict [(lit "prompt", PStr (prompt_head ++ eng ++ prompt_tail));
                     (lit "model", PStr OLLAMA_MODEL);
                     (lit "stream", PBool true)])]]
     | Raise _ => []
     end) /\
  (exists t, trace (nllb_translate_tr_to_eng w input) = ETokenizer input :: t /\
             forallb is_translator_event t = true) /\
  calls (trace (sentiment_analyzer w input false)) =
    [ECreate
       [(lit "model", PStr OPENAI_MODEL);
        (lit "response_format", PDict [(lit "type", PStr (lit "json_object"))]);
        (lit "messages",
          PList [PDict [(lit "role", PStr (lit "user"));
                        (lit "content", PStr (prompt_head ++ input ++ prompt_tail))]]);
        (lit "temperature", PInt 0)]] /\
  (forall text, is_substring text (prompt_head ++ text ++ prompt_tail) = true).
Proof.
  split; [| split; [| split]].
  - rewrite calls_sentiment_analyzer. unfold working_text. f_equal.
    destruct (outcome (nllb_translate_tr_to_eng w input)) as [eng | e]; [| reflexivity].
    rewrite trace_selected_adapter. reflexivity.
  - apply trace_nllb_translate_tr_to_eng.
  - rewrite calls_sentiment_analyzer. unfold working_text. cbn [app].
    rewrite trace_selected_adapter. reflexivity.
  - intros text. apply is_substring_later, is_substring_here, is_prefix_self.
Qed.

(** A run of each kind: the request that leaves the orchestrator carries
    the translation with the local backend, the comment itself with the
    remote one. *)
Example dispatch_local_run :
  calls (trace (sentiment_analyzer
                  (Sample.world (Ok [lit "This film is great"])
                     (Sample.stream ["{'response':'{}','done':true}"%string])
                     Sample.offline)
                  (lit "Bu film harika") true))
  = [ETokenizer (lit "Bu film harika");
     EGenerate [map Z.of_N (lit "Bu film harika")] 256047 30;
     EBatchDecode [256047 :: map Z.of_N (lit "Bu film harika")];
     EPost OLLAMA_URL
       [(lit "json",
         PDict [(lit "prompt",
                 PStr (prompt_head ++ lit "This film is great" ++ prompt_tail));
                (lit "model", PStr (lit "mistral"));
                (lit "stream", PBool true)])]].
Proof. vm_compute. reflexivity. Qed.

Example dispatch_remote_run :
  calls (trace (sentiment_analyzer
                  (Sample.world (Ok [lit "This film is great"])
                     (Sample.stream ["{'response':'{}','done':true}"%string])
                     (Sample.completion "{}"))
                  (lit "Bu film harika") false))
  = [ECreate
       [(lit "model", PStr (lit "gpt-4-1106-preview"));
        (lit "response_format", PDict [(lit "type", PStr (lit "json_object"))]);
        (lit "messages",
          PList [PDict [(lit "role", PStr (lit "user"));
                        (lit "content",
                         PStr (prompt_head ++ lit "Bu film harika" ++ prompt_tail))]]);
        (lit "temperature", PInt 0)]].
Proof. vm_compute. reflexivity. Qed.

(** C7. The orchestrator raises [e] exactly when the translator raised
    [e] or the selected adapter, called on the prompt built from the
    working text, raised [e]: such a failure reaches the caller as it is,
    and nothing else makes the orchestrator raise, the failures of the
    parse step being turned into the sentinel.  In every run the two
    adapters are called at most once in total and the adapter that was
    not selected is not called: no retry, no switch to the other
    backend. *)
Theorem backend_errors_propagate (w : env) (input : pystr) (is_local : bool) :
  (forall e,
     outcome (sentiment_analyzer w input is_local) = Raise e <->
     (is_local = true /\ outcome (nllb_translate_tr_to_eng w input) = Raise e) \/
     (exists text, working_text w input is_local = Ok text /\
        outcome (selected_adapter w is_local (build_prompt text)) = Raise e)) /\
  (count is_post (trace (sentiment_analyzer w input is_local)) +
   count is_create (trace (sentiment_analyzer w input is_local)) <= 1)%nat /\
  count (if is_local then is_create else is_post)
        (trace (sentiment_analyzer w input is_local)) = 0%nat.
Proof.
  split; [| apply adapter_calls].
  intros e. rewrite outcome_sentiment_analyzer. unfold rbind, working_text.
  split.
  - destruct is_local.
    + destruct (outcome (nllb_translate_tr_to_eng w input)) as [text | e'];
        [| intros [= ->]; left; auto].
      destruct (outcome (selected_adapter w true (build_prompt text))) as [reply | e'] eqn:Hr.
      * destruct (parse_reply_total w reply) as [v ->]. discriminate.
      * intros [= ->]. right. exists text. auto.
    + destruct (outcome (selected_adapter w false (build_prompt input))) as [reply | e'] eqn:Hr.
      * destruct (parse_reply_total w reply) as [v ->]. discriminate.
      * intros [= ->]. right. exists input. auto.
  - intros [[-> Ht] | (text & Ht & Ha)].
    + now rewrite Ht.
    + destruct is_local; [rewrite Ht | injection Ht as ->]; now rewrite Ha.
Qed.

Lemma backend_errors_propagate_witness :
  let broken := Sample.world (Raise (LibraryError "RuntimeError"))
                  (Sample.stream ["{'response':'{}','done':true}"%string])
                  (Sample.completion "{}") in
  let down := Sample.world (Ok [lit "This film is great"]) Sample.offline Sample.offline in
  outcome (sentiment_analyzer broken (lit "Bu film harika") true)
    = Raise (LibraryError "RuntimeError") /\
  outcome (sentiment_analyzer down (lit "Bu film harika") true)
    = Raise (LibraryError "ConnectionError") /\
  outcome (sentiment_analyzer down (lit "Bu film harika") false)
    = Raise (LibraryError "ConnectionError").
Proof.
  intros broken down. split; [| split].
  - apply (proj1 (backend_errors_propagate broken _ true)).
    left. split; [reflexivity | vm_compute; reflexivity].
  - apply (proj1 (backend_errors_propagate down _ true)).
    right. exists (lit "This film is great"). split; vm_compute; reflexivity.
  - apply (proj1 (backend_errors_propagate down _ false)).
    right. exists (lit "Bu film harika"). split; vm_compute; reflexivity.
Defined.

(** C8. For every prompt the remote adapter makes exactly one call of
    the completion service, whatever the service answers; the call
    carries the prompt as its only message, with role [user], the
    response format [json_object] and temperature 0, and no [stream]
    argument; when the service answers with at least one choice the
    adapter returns the content of the first choice's message as it is,
    and when the service fails the failure is the adapter's outcome. *)
Theorem remote_adapter_single_request (w : env) (prompt : pystr) :
  let kw := openai_kwargs prompt OPENAI_MODEL 0 in
  trace (get_completion_openai w prompt OPENAI_MODEL 0) = [ECreate kw] /\
  dict_lookup (lit "messages") kw =
    Some (PList [PDict [(lit "role", PStr (lit "user")); (lit "content", PStr prompt)]]) /\
  dict_lookup (lit "response_format") kw =
    Some (PDict [(lit "type", PStr (lit "json_object"))]) /\
  dict_lookup (lit "temperature") kw = Some (PInt 0) /\
  dict_lookup (lit "stream") kw = None /\
  (forall c cs, chat_completions_create w kw = Ok {| choices := c :: cs |} ->
     outcome (get_completion_openai w prompt OPENAI_MODEL 0)
       = Ok (content (message_of c))) /\
  (forall e, chat_completions_create w kw = Raise e ->
     outcome (get_completion_openai w prompt OPENAI_MODEL 0) = Raise e).
Proof.
  intros kw. subst kw.
  split; [apply trace_get_completion_openai |].
  repeat (split; [reflexivity |]).
  split; intros; rewrite outcome_get_completion_openai, H; reflexivity.
Qed.

Lemma remote_adapter_single_request_witness :
  let w := Sample.world Sample.offline Sample.offline (Sample.completion "  {'a': 1}
") in
  let prompt := build_prompt (lit "Bu film harika") in
  outcome (get_completion_openai w prompt OPENAI_MODEL 0)
    = Ok (PStr (Sample.jlit "  {'a': 1}
")).
Proof.
  intros w prompt.
  destruct (remote_adapter_single_request w prompt) as (_ & _ & _ & _ & _ & H & _).
  exact (H (mkChoice (mkMessage (PStr (Sample.jlit "  {'a': 1}
")))) [] eq_refl).
Defined.

(** C9 (as amended). The local adapter makes exactly one HTTP request,
    whose only argument besides the URL is the JSON body: it passes no
    [timeout], so the HTTP library's default (none) applies; and when the
    HTTP library raises, that exception is the adapter's outcome as it
    is. *)
Theorem local_adapter_no_timeout (w : env) (prompt model url : pystr) :
  let kw := [(lit "json", ollama_data prompt model)] in
  trace (get_completion_ollama w prompt model url) = [EPost url kw] /\
  dict_lookup (lit "timeout") kw = None /\
  (forall e, requests_post w url kw = Raise e ->
     outcome (get_completion_ollama w prompt model url) = Raise e).
Proof.
  intros kw. subst kw.
  split; [apply trace_get_completion_ollama |].
  split; [reflexivity |].
  intros e He. rewrite outcome_get_completion_ollama, He. reflexivity.
Qed.

Lemma local_adapter_no_timeout_witness :
  let w := Sample.world Sample.offline (Raise (LibraryError "ConnectTimeout"))
             Sample.offline in
  outcome (get_completion_ollama w (lit "hello") OLLAMA_MODEL OLLAMA_URL)
    = Raise (LibraryError "ConnectTimeout").
Proof.
  intros w.
  refine (proj2 (proj2 (local_adapter_no_timeout w _ _ _)) _ _).
  reflexivity.
Defined.

(** C9, as stated, fails: the request the local adapter issues carries
    no timeout. *)
Lemma local_adapter_timeout_absent :
  ~ imposes_timeout
      (trace (get_completion_ollama
                (Sample.world Sample.offline
                   (Sample.stream ["{'response':'ok','done':true}"%string]) Sample.offline)
                (lit "hello") OLLAMA_MODEL OLLAMA_URL)).
Proof.
  rewrite trace_get_completion_ollama.
  intros (url & kw & v & [Hin | []] & Hl).
  injection Hin as <- <-. discriminate Hl.
Qed.

(** ** The stream loop of the local adapter *)

(** One pass of the loop on an object: the [error] test comes first, then
    the fragment is appended, then [done] is tested. *)
Lemma loop_body_chunk (parts : list pyval) (c : chunk) :
  loop_body parts (PDict c) =
  match error_of c with
  | Some msg => Raise (Exception_ msg)
  | None =>
      if done_flag c then Ok (inr (parts ++ [fragment c]))
      else Ok (inl (parts ++ [fragment c]))
  end.
Proof.
  unfold loop_body, py_in, py_getitem, py_get, rbind, error_of, done_flag, fragment.
  destruct (dict_lookup (lit "error") c) as [msg |]; [reflexivity |].
  destruct (dict_lookup (lit "response") c) as [v |];
    destruct (dict_lookup (lit "done") c) as [d |]; reflexivity.
Qed.

(** Lines that decode to chunks after which the loop goes on only move
    their fragments into the buffer. *)
Lemma read_lines_continues (w : env) (pre : list (list N)) (cs : list chunk) :
  Forall2 (continues w) pre cs ->
  forall rest parts,
    read_lines w (pre ++ rest) parts = read_lines w rest (parts ++ map fragment cs).
Proof.
  induction 1 as [| line c pre cs (Hd & He & Hn) _ IH]; intros rest parts.
  - cbn [app map]. now rewrite app_nil_r.
  - cbn [app map read_lines]. unfold decodes in Hd. rewrite Hd.
    cbn [rbind]. rewrite loop_body_chunk, He, Hn. cbn [rbind].
    rewrite IH, <- app_assoc. reflexivity.
Qed.

(** On a stream of chunks free of [error] up to the first [done], the
    loop ends with the fragments of the chunks up to that one. *)
Lemma read_lines_upto_done (w : env) (lines : list (list N)) (cs : list chunk) :
  Forall2 (decodes w) lines cs ->
  Forall (fun c => error_of c = None) (upto_done cs) ->
  forall parts, read_lines w lines parts = Ok (parts ++ map fragment (upto_done cs)).
Proof.
  induction 1 as [| line c lines cs Hd _ IH]; intros Hfree parts.
  - cbn. now rewrite app_nil_r.
  - cbn [read_lines upto_done] in *. unfold decodes in Hd. rewrite Hd.
    cbn [rbind]. rewrite loop_body_chunk.
    destruct (done_flag c) eqn:Hdone.
    + inversion Hfree as [| ? ? He _]; subst. rewrite He. reflexivity.
    + inversion Hfree as [| ? ? He Hrest]; subst. rewrite He. cbn [rbind].
      rewrite (IH Hrest), <- app_assoc. reflexivity.
Qed.

Lemma py_join_texts (cs : list chunk) :
  Forall has_text cs -> py_join (map fragment cs) = Ok (List.concat (map text_of cs)).
Proof.
  induction 1 as [| c cs [s Hs] _ IH]; [reflexivity |].
  cbn [map py_join List.concat]. unfold text_of. rewrite Hs, IH. reflexivity.
Qed.

Lemma outcome_delivered (w : env) (url prompt model : pystr) (lines : list (list N)) :
  delivers w url prompt model lines ->
  outcome (get_completion_ollama w prompt model url) =
  (parts <- read_lines w lines [] ;;
   joined <- py_join parts ;;
   Ok (PStr (strip joined)))%res.
Proof.
  intros (r & Hpost & Hstatus & <-).
  rewrite outcome_get_completion_ollama, Hpost. cbn [rbind].
  rewrite Hstatus. reflexivity.
Qed.

Lemma Forall_and_split {A} (P Q : A -> Prop) (l : list A) :
  Forall (fun x => P x /\ Q x) l -> Forall P l /\ Forall Q l.
Proof.
  induction 1 as [| x l [Hp Hq] _ [IHp IHq]]; split; constructor; assumption.
Qed.

(** C4 (as amended). For every finite sequence of chunks in which no
    chunk up to and including the first one with a true [done] carries an
    [error] field, and whose response fragments are strings, the local
    adapter returns the fragments of the chunks up to and including that
    first [done] chunk (an absent fragment counting as the empty string),
    concatenated in arrival order and stripped of leading and trailing
    whitespace; in particular, for the chunks
    [{"response":"Hel","done":false}], [{"response":"lo","done":false}],
    [{"response":"","done":true}] it returns ["Hello"]. *)
Theorem local_adapter_reassembles (w : env) (prompt model url : pystr)
    (lines : list (list N)) :
  delivers w url prompt model lines ->
  (forall cs,
     Forall2 (decodes w) lines cs ->
     Forall (fun c => error_of c = None /\ has_text c) (upto_done cs) ->
     outcome (get_completion_ollama w prompt model url) = Ok (PStr (reassembled cs))) /\
  (Forall2 (decodes w) lines hello_chunks ->
   outcome (get_completion_ollama w prompt model url) = Ok (PStr (lit "Hello"))).
Proof.
  intros Hdel.
  assert (Hgen : forall cs,
     Forall2 (decodes w) lines cs ->
     Forall (fun c => error_of c = None /\ has_text c) (upto_done cs) ->
     outcome (get_completion_ollama w prompt model url) = Ok (PStr (reassembled cs))).
  { intros cs Hdec Hok. apply Forall_and_split in Hok as [Hfree Htext].
    rewrite (outcome_delivered _ _ _ _ _ Hdel).
    rewrite (read_lines_upto_done w lines cs Hdec Hfree). cbn [rbind app].
    rewrite (py_join_texts _ Htext). reflexivity. }
  split; [exact Hgen |].
  intros Hdec. rewrite (Hgen hello_chunks Hdec).
  - vm_compute. reflexivity.
  - repeat constructor; vm_compute; eauto.
Qed.

Lemma local_adapter_reassembles_witness :
  let w := Sample.world Sample.offline
             (Sample.stream ["{'response':' Hel','done':false}"%string;
                             "{'done':0}"%string;
                             "{'response':'lo  ','done':true}"%string;
                             "{'response':'never read'}"%string])
             Sample.offline in
  let hello := Sample.world Sample.offline
             (Sample.stream ["{'response':'Hel','done':false}"%string;
                             "{'response':'lo','done':false}"%string;
                             "{'response':'','done':true}"%string])
             Sample.offline in
  outcome (get_completion_ollama w (lit "Say hello") OLLAMA_MODEL OLLAMA_URL)
    = Ok (PStr (lit "Hello")) /\
  outcome (get_completion_ollama hello (lit "Say hello") OLLAMA_MODEL OLLAMA_URL)
    = Ok (PStr (lit "Hello")).
Proof.
  intros w hello. split.
  - refine (proj1 (local_adapter_reassembles w (lit "Say hello") OLLAMA_MODEL OLLAMA_URL
              _ _)
            [ [(lit "response", PStr (lit " Hel")); (lit "done", PBool false)];
              [(lit "done", PInt 0)];
              [(lit "response", PStr (lit "lo  ")); (lit "done", PBool true)];
              [(lit "response", PStr (lit "never read"))] ] _ _).
    + eexists. split; [reflexivity | split; reflexivity].
    + repeat constructor; vm_compute; reflexivity.
    + repeat constructor; vm_compute; eauto.
  - refine (proj2 (local_adapter_reassembles hello (lit "Say hello") OLLAMA_MODEL
              OLLAMA_URL _ _) _).
    + eexists. split; [reflexivity | split; reflexivity].
    + repeat constructor; vm_compute; reflexivity.
Defined.

(** C4, as stated, fails: a stream whose only chunk is
    [{"error":"model not found"}] is a finite sequence of chunks, and the
    adapter does not return the stripped concatenation of its fragments
    (the empty string): it raises. *)
Lemma local_adapter_error_not_reassembled :
  let lines := ["{'error':'model not found'}"%string] in
  let w := Sample.world Sample.offline (Sample.stream lines) Sample.offline in
  let cs := [ [(lit "error", PStr (lit "model not found"))] ] in
  delivers w OLLAMA_URL (lit "Say hello") OLLAMA_MODEL (map Sample.jlit lines) /\
  Forall2 (decodes w) (map Sample.jlit lines) cs /\
  outcome (get_completion_ollama w (lit "Say hello") OLLAMA_MODEL OLLAMA_URL)
    <> Ok (PStr (reassembled cs)).
Proof.
  intros lines w cs. split; [| split].
  - eexists. split; [reflexivity | split; reflexivity].
  - repeat constructor.
  - vm_compute. discriminate.
Qed.

(** Reaching a chunk with an [error] field ends the loop with an
    exception carrying the field's value, whatever lines follow. *)
Lemma read_lines_error (w : env) (pre : list (list N)) (cs : list chunk)
    (line : list N) (c : chunk) (msg : pyval) :
  Forall2 (continues w) pre cs ->
  decodes w line c ->
  error_of c = Some msg ->
  forall rest parts, read_lines w (pre ++ line :: rest) parts = Raise (Exception_ msg).
Proof.
  intros Hpre Hd He rest parts. rewrite (read_lines_continues w pre cs Hpre).
  cbn [read_lines]. unfold decodes in Hd. rewrite Hd. cbn [rbind].
  rewrite loop_body_chunk, He. reflexivity.
Qed.

Lemma outcome_error_chunk (w : env) (prompt model url : pystr)
    (pre : list (list N)) (cs : list chunk) (line : list N) (c : chunk)
    (msg : pyval) (rest : list (list N)) :
  delivers w url prompt model (pre ++ line :: rest) ->
  Forall2 (continues w) pre cs ->
  decodes w line c ->
  error_of c = Some msg ->
  outcome (get_completion_ollama w prompt model url) = Raise (Exception_ msg).
Proof.
  intros Hdel Hpre Hd He.
  rewrite (outcome_delivered _ _ _ _ _ Hdel).
  rewrite (read_lines_error w pre cs line c msg Hpre Hd He). reflexivity.
Qed.

(** C5 (as amended). For every stream in which a chunk carries an
    [error] field and every chunk before it is an object with no [error]
    field and no true [done] field, the local adapter raises an exception
    carrying that chunk's [error] value, whatever lines follow: the lines
    after the first chunk with an [error] field are neither decoded nor
    processed. *)
Theorem local_adapter_error_chunk (w : env) (prompt model url : pystr)
    (pre : list (list N)) (cs : list chunk) (line : list N) (c : chunk)
    (msg : pyval) (rest : list (list N)) :
  delivers w url prompt model (pre ++ line :: rest) ->
  Forall2 (continues w) pre cs ->
  decodes w line c ->
  error_of c = Some msg ->
  outcome (get_completion_ollama w prompt model url) = Raise (Exception_ msg) /\
  forall rest' parts,
    read_lines w (pre ++ line :: rest') parts = Raise (Exception_ msg).
Proof.
  intros Hdel Hpre Hd He. split.
  - exact (outcome_error_chunk w prompt model url pre cs line c msg rest Hdel Hpre Hd He).
  - exact (read_lines_error w pre cs line c msg Hpre Hd He).
Qed.

Lemma local_adapter_error_chunk_witness :
  let w := Sample.world Sample.offline
             (Sample.stream ["{'response':'par','done':false}"%string;
                             "{'error':'model not found'}"%string;
                             "this line is not JSON"%string])
             Sample.offline in
  outcome (get_completion_ollama w (lit "Say hello") OLLAMA_MODEL OLLAMA_URL)
    = Raise (Exception_ (PStr (lit "model not found"))).
Proof.
  intros w.
  refine (proj1 (local_adapter_error_chunk w (lit "Say hello") OLLAMA_MODEL OLLAMA_URL
            [Sample.jlit "{'response':'par','done':false}"]
            [ [(lit "response", PStr (lit "par")); (lit "done", PBool false)] ]
            (Sample.jlit "{'error':'model not found'}")
            [(lit "error", PStr (lit "model not found"))]
            (PStr (lit "model not found"))
            [Sample.jlit "this line is not JSON"] _ _ _ _)).
  - eexists. split; [reflexivity | split; reflexivity].
  - constructor; [| constructor]. split; [| split]; vm_compute; reflexivity.
  - vm_compute. reflexivity.
  - vm_compute. reflexivity.
Defined.

(** C5, as stated, fails: in the stream
    [{"response":"hi","done":true}], [{"error":"model not found"}] a
    chunk carries an [error] field, and the adapter returns ["hi"]. *)
Lemma local_adapter_error_after_done :
  let lines := ["{'response':'hi','done':true}"%string;
                "{'error':'model not found'}"%string] in
  let w := Sample.world Sample.offline (Sample.stream lines) Sample.offline in
  delivers w OLLAMA_URL (lit "Say hello") OLLAMA_MODEL (map Sample.jlit lines) /\
  (exists line c msg, In line (map Sample.jlit lines) /\ decodes w line c /\
                      error_of c = Some msg) /\
  outcome (get_completion_ollama w (lit "Say hello") OLLAMA_MODEL OLLAMA_URL)
    = Ok (PStr (lit "hi")).
Proof.
  intros lines w. split; [| split].
  - eexists. split; [reflexivity | split; reflexivity].
  - exists (Sample.jlit "{'error':'model not found'}"),
      [(lit "error", PStr (lit "model not found"))], (PStr (lit "model not found")).
    split; [right; left; reflexivity | split; vm_compute; reflexivity].
  - vm_compute. reflexivity.
Qed.



(** * Further properties of the module *)

(** ** Stripping *)

Lemma lstrip_split (s : pystr) :
  exists l, s = l ++ lstrip s /\ forallb is_space l = true.
Proof.
  induction s as [| c s (l & Hs & Hl)]; [exists []; split; reflexivity |].
  cbn [lstrip]. destruct (is_space c) eqn:Hc.
  - exists (c :: l). cbn [app forallb]. rewrite Hc, Hl. split; [congruence | reflexivity].
  - exists []. split; reflexivity.
Qed.

Lemma lstrip_head (s : pystr) (c : N) (r : pystr) :
  lstrip s = c :: r -> is_space c = false.
Proof.
  induction s as [| x s IH]; [discriminate |].
  cbn [lstrip]. destruct (is_space x) eqn:Hx; [exact IH |].
  intros [= <- <-]. exact Hx.
Qed.

Lemma lstrip_fixed (s : pystr) :
  (forall c r, s = c :: r -> is_space c = false) -> lstrip s = s.
Proof.
  destruct s as [| c s]; [reflexivity |].
  intros H. cbn [lstrip]. now rewrite (H c s eq_refl).
Qed.

Lemma forallb_rev (p : N -> bool) (l : list N) :
  forallb p l = true -> forallb p (rev l) = true.
Proof.
  rewrite !forallb_forall. intros H x Hx. apply H. now apply in_rev.
Qed.

Lemma rstrip_split (s : pystr) :
  exists r, s = rstrip s ++ r /\ forallb is_space r = true.
Proof.
  destruct (lstrip_split (rev s)) as (l & Hs & Hl).
  exists (rev l). split; [| now apply forallb_rev].
  unfold rstrip. rewrite <- rev_app_distr, <- Hs. now rewrite rev_involutive.
Qed.

Lemma rstrip_last (s : pystr) (c : N) (r : pystr) :
  rstrip s = r ++ [c] -> is_space c = false.
Proof.
  unfold rstrip. intros H. apply (f_equal (@rev N)) in H.
  rewrite rev_involutive, rev_app_distr in H. cbn [rev app] in H.
  exact (lstrip_head _ _ _ H).
Qed.

Lemma strip_stripped (s : pystr) : stripped (strip s).
Proof.
  split; intros c r H.
  - unfold strip in H. destruct (rstrip_split (lstrip s)) as (t & Ht & _).
    rewrite H in Ht. exact (lstrip_head s c (r ++ t) Ht).
  - exact (rstrip_last _ _ _ H).
Qed.

(** X1. Stripping removes whitespace at the two ends and nothing else:
    every string is a run of whitespace, its stripped form, and a run of
    whitespace; the stripped form neither starts nor ends with
    whitespace, and a string that neither starts nor ends with whitespace
    is left as it is. *)
Theorem strip_ends_only (s : pystr) :
  (exists l r, s = l ++ strip s ++ r /\
               forallb is_space l = true /\ forallb is_space r = true) /\
  stripped (strip s) /\
  (stripped s -> strip s = s).
Proof.
  split; [| split; [apply strip_stripped |]].
  - destruct (lstrip_split s) as (l & Hs & Hl).
    destruct (rstrip_split (lstrip s)) as (r & Hr & Hrs).
    exists l, r. unfold strip. rewrite <- Hr, <- Hs. auto.
  - intros [Hhead Hlast]. unfold strip. rewrite (lstrip_fixed s Hhead).
    unfold rstrip. rewrite lstrip_fixed; [apply rev_involutive |].
    intros c r Hrev. apply (Hlast c (rev r)).
    rewrite <- (rev_involutive s), Hrev. reflexivity.
Qed.

Lemma strip_ends_only_witness :
  stripped (lit "so good") /\ strip (lit "so good") = lit "so good".
Proof.
  assert (H : stripped (lit "so good")).
  { split; intros c r Hs.
    - injection Hs as <- _. reflexivity.
    - apply (f_equal (@rev N)) in Hs. rewrite rev_app_distr in Hs.
      injection Hs as <- _. reflexivity. }
  split; [exact H | exact (proj2 (proj2 (strip_ends_only (lit "so good"))) H)].
Defined.

(** X2. Whenever the local adapter returns, it returns a string, and the
    string neither starts nor ends with whitespace. *)
Theorem local_adapter_returns_stripped (w : env) (prompt model url : pystr)
    (v : pyval) :
  outcome (get_completion_ollama w prompt model url) = Ok v ->
  exists s, v = PStr s /\ stripped s.
Proof.
  rewrite outcome_get_completion_ollama. unfold rbind.
  destruct (requests_post w url _) as [r | e]; [| discriminate].
  destruct (raise_for_status r) as [[] | e]; [| discriminate].
  destruct (read_lines w (iter_lines r) []) as [parts | e]; [| discriminate].
  destruct (py_join parts) as [joined | e]; [| discriminate].
  intros [= <-]. exists (strip joined). split; [reflexivity | apply strip_stripped].
Qed.

Lemma local_adapter_returns_stripped_witness :
  let w := Sample.world Sample.offline
             (Sample.stream ["{'response':'  \n a b \t','done':true}"%string])
             Sample.offline in
  outcome (get_completion_ollama w (lit "hello") OLLAMA_MODEL OLLAMA_URL)
    = Ok (PStr (lit "a b")) /\
  exists s, PStr (lit "a b") = PStr s /\ stripped s.
Proof.
  intros w.
  assert (H : outcome (get_completion_ollama w (lit "hello") OLLAMA_MODEL OLLAMA_URL)
              = Ok (PStr (lit "a b"))) by (vm_compute; reflexivity).
  split; [exact H |].
  exact (local_adapter_returns_stripped w _ _ _ _ H).
Defined.

(** ** Failures of the local adapter *)

(** X3. When the daemon answers with a status from 400 to 599, the local
    adapter raises an HTTP error with that status, whatever the body
    holds: no line of it is read. *)
Theorem local_adapter_http_error (w : env) (prompt model url : pystr)
    (status : Z) (body : list (list N)) :
  requests_post w url [(lit "json", ollama_data prompt model)]
    = Ok {| status_code := status; iter_lines := body |} ->
  400 <= status < 600 ->
  outcome (get_completion_ollama w prompt model url) = Raise (HTTPError status).
Proof.
  intros Hpost Hrange.
  rewrite outcome_get_completion_ollama, Hpost. cbn [rbind].
  unfold raise_for_status. cbn [status_code].
  replace (400 <=? status) with true by (symmetry; apply Z.leb_le; lia).
  replace (status <? 600) with true by (symmetry; apply Z.ltb_lt; lia).
  reflexivity.
Qed.

Lemma local_adapter_http_error_witness :
  let body := [Sample.jlit "{'error':'model mistral not found'}"] in
  let w := Sample.world Sample.offline
             (Ok {| status_code := 404; iter_lines := body |}) Sample.offline in
  outcome (get_completion_ollama w (lit "hello") OLLAMA_MODEL OLLAMA_URL)
    = Raise (HTTPError 404).
Proof.
  intros body w.
  refine (local_adapter_http_error w (lit "hello") OLLAMA_MODEL OLLAMA_URL 404 body _ _).
  - reflexivity.
  - lia.
Defined.

(** X4. When the loop reaches a line the decoder rejects, the local
    adapter raises the decoder's exception: the fragments read so far are
    not returned and the lines that follow are not read. *)
Theorem local_adapter_undecodable_line (w : env) (prompt model url : pystr)
    (pre : list (list N)) (cs : list chunk) (line : list N) (e : exn)
    (rest : list (list N)) :
  delivers w url prompt model (pre ++ line :: rest) ->
  Forall2 (continues w) pre cs ->
  json_loads w (PBytes line) = Raise e ->
  outcome (get_completion_ollama w prompt model url) = Raise e.
Proof.
  intros Hdel Hpre Hline.
  rewrite (outcome_delivered _ _ _ _ _ Hdel).
  rewrite (read_lines_continues w pre cs Hpre).
  cbn [read_lines]. rewrite Hline. reflexivity.
Qed.

Lemma local_adapter_undecodable_line_witness :
  let w := Sample.world Sample.offline
             (Sample.stream ["{'response':'par','done':false}"%string;
                             ""%string;
                             "{'response':'tial','done':true}"%string])
             Sample.offline in
  outcome (get_completion_ollama w (lit "hello") OLLAMA_MODEL OLLAMA_URL)
    = Raise JSONDecodeError.
Proof.
  intros w.
  refine (local_adapter_undecodable_line w (lit "hello") OLLAMA_MODEL OLLAMA_URL
            [Sample.jlit "{'response':'par','done':false}"]
            [ [(lit "response", PStr (lit "par")); (lit "done", PBool false)] ]
            (Sample.jlit "") JSONDecodeError
            [Sample.jlit "{'response':'tial','done':true}"] _ _ _).
  - eexists. split; [reflexivity | split; reflexivity].
  - constructor; [| constructor]. split; [| split]; vm_compute; reflexivity.
  - vm_compute. reflexivity.
Defined.

(** One pass of the loop on a value that is not an object. *)
Lemma loop_body_not_object (parts : list pyval) (v : pyval) :
  (forall c, v <> PDict c) ->
  loop_body parts v = Raise TypeError \/ loop_body parts v = Raise AttributeError.
Proof.
  intros Hv. unfold loop_body, py_in, py_getitem, py_get, rbind.
  destruct v; auto.
  - destruct (is_substring (lit "error") s); auto.
  - destruct (existsb (is_str (lit "error")) xs); auto.
  - destruct (existsb (is_str (lit "error")) xs); auto.
  - exfalso. now apply (Hv kvs).
Qed.

(** X5. When the loop reaches a line that decodes to something that is
    not an object (a number, a string, a list, [true], [null]), the local
    adapter raises a type error or an attribute error; it returns
    nothing, whatever follows. *)
Theorem local_adapter_not_object (w : env) (prompt model url : pystr)
    (pre : list (list N)) (cs : list chunk) (line : list N) (v : pyval)
    (rest : list (list N)) :
  delivers w url prompt model (pre ++ line :: rest) ->
  Forall2 (continues w) pre cs ->
  json_loads w (PBytes line) = Ok v ->
  (forall c, v <> PDict c) ->
  outcome (get_completion_ollama w prompt model url) = Raise TypeError \/
  outcome (get_completion_ollama w prompt model url) = Raise AttributeError.
Proof.
  intros Hdel Hpre Hline Hv.
  rewrite (outcome_delivered _ _ _ _ _ Hdel).
  rewrite (read_lines_continues w pre cs Hpre).
  cbn [read_lines]. rewrite Hline. cbn [rbind].
  destruct (loop_body_not_object ([] ++ map fragment cs) v Hv) as [-> | ->]; auto.
Qed.

Lemma local_adapter_not_object_witness :
  let w := Sample.world Sample.offline
             (Sample.stream ["'no such model'"%string; "{'done':true}"%string])
             Sample.offline in
  outcome (get_completion_ollama w (lit "hello") OLLAMA_MODEL OLLAMA_URL)
    = Raise TypeError \/
  outcome (get_completion_ollama w (lit "hello") OLLAMA_MODEL OLLAMA_URL)
    = Raise AttributeError.
Proof.
  intros w.
  refine (local_adapter_not_object w (lit "hello") OLLAMA_MODEL OLLAMA_URL
            [] [] (Sample.jlit "'no such model'") (PStr (lit "no such model"))
            [Sample.jlit "{'done':true}"] _ _ _ _).
  - eexists. split; [reflexivity | split; reflexivity].
  - constructor.
  - vm_compute. reflexivity.
  - discriminate.
Defined.

(** Joining succeeds only on strings, and fails with a type error only. *)
Lemma py_join_outcome (parts : list pyval) :
  (exists s, py_join parts = Ok s /\ Forall (fun v => exists t, v = PStr t) parts) \/
  (py_join parts = Raise TypeError /\ ~ Forall (fun v => exists t, v = PStr t) parts).
Proof.
  induction parts as [| v parts IH].
  - left. exists []. split; [reflexivity | constructor].
  - assert (Hbad : (forall t, v <> PStr t) ->
              ~ Forall (fun v => exists t, v = PStr t) (v :: parts)).
    { intros Hv H. inversion H as [| ? ? [t Ht] _]; subst. now apply (Hv t). }
    destruct v; try (right; split; [reflexivity | apply Hbad; discriminate]).
    cbn [py_join]. destruct IH as [(t & -> & Hall) | (-> & Hnot)].
    + left. eexists. split; [reflexivity |]. constructor; eauto.
    + right. split; [reflexivity |]. intros H. inversion H; subst. contradiction.
Qed.

Lemma Forall_fragment (cs : list chunk) :
  Forall (fun v => exists t, v = PStr t) (map fragment cs) <-> Forall has_text cs.
Proof.
  rewrite Forall_map. reflexivity.
Qed.

(** X6. When the loop ends without an [error] chunk but one of the
    fragments it appended is not a string (a number, [null], a list), the
    local adapter raises a type error: nothing is returned, not even the
    fragments that are strings. *)
Theorem local_adapter_fragment_not_string (w : env) (prompt model url : pystr)
    (lines : list (list N)) (cs : list chunk) :
  delivers w url prompt model lines ->
  Forall2 (decodes w) lines cs ->
  Forall (fun c => error_of c = None) (upto_done cs) ->
  ~ Forall has_text (upto_done cs) ->
  outcome (get_completion_ollama w prompt model url) = Raise TypeError.
Proof.
  intros Hdel Hdec Hfree Hbad.
  rewrite (outcome_delivered _ _ _ _ _ Hdel).
  rewrite (read_lines_upto_done w lines cs Hdec Hfree). cbn [rbind app].
  destruct (py_join_outcome (map fragment (upto_done cs)))
    as [(s & _ & Hall) | (-> & _)]; [| reflexivity].
  apply Forall_fragment in Hall. contradiction.
Qed.

Lemma local_adapter_fragment_not_string_witness :
  let w := Sample.world Sample.offline
             (Sample.stream ["{'response':'fine','done':false}"%string;
                             "{'response':null,'done':true}"%string])
             Sample.offline in
  outcome (get_completion_ollama w (lit "hello") OLLAMA_MODEL OLLAMA_URL)
    = Raise TypeError.
Proof.
  intros w.
  refine (local_adapter_fragment_not_string w (lit "hello") OLLAMA_MODEL OLLAMA_URL _
            [ [(lit "response", PStr (lit "fine")); (lit "done", PBool false)];
              [(lit "response", PNone); (lit "done", PBool true)] ] _ _ _ _).
  - eexists. split; [reflexivity | split; reflexivity].
  - repeat constructor; vm_compute; reflexivity.
  - repeat constructor; vm_compute; reflexivity.
  - intros H. inversion H as [| ? ? _ H2]; subst.
    inversion H2 as [| ? ? [s Hs] _]; subst. discriminate Hs.
Defined.

Lemma upto_done_continues (w : env) (lines : list (list N)) (cs : list chunk) :
  Forall2 (continues w) lines cs ->
  upto_done cs = cs /\ Forall2 (decodes w) lines cs /\
  Forall (fun c => error_of c = None) cs.
Proof.
  induction 1 as [| line c lines cs (Hd & He & Hn) _ (IHu & IHd & IHe)].
  - repeat split; constructor.
  - cbn [upto_done]. rewrite Hn, IHu. repeat split; constructor; assumption.
Qed.

(** X7. A stream that ends before any chunk with a true [done] field is
    not told apart from a complete one: when every chunk is an object
    with no [error] field and a string fragment, and none has a true
    [done], the local adapter returns all the fragments, concatenated and
    stripped; on a body with no line at all it returns the empty
    string. *)
Theorem local_adapter_truncated_stream (w : env) (prompt model url : pystr)
    (lines : list (list N)) (cs : list chunk) :
  delivers w url prompt model lines ->
  Forall2 (continues w) lines cs ->
  Forall has_text cs ->
  outcome (get_completion_ollama w prompt model url)
    = Ok (PStr (strip (List.concat (map text_of cs)))) /\
  (lines = [] -> outcome (get_completion_ollama w prompt model url) = Ok (PStr [])).
Proof.
  intros Hdel Hcont Htext.
  destruct (upto_done_continues w lines cs Hcont) as (Hu & Hdec & Hfree).
  assert (Hout : outcome (get_completion_ollama w prompt model url)
                 = Ok (PStr (strip (List.concat (map text_of cs))))).
  { rewrite (outcome_delivered _ _ _ _ _ Hdel).
    rewrite (read_lines_upto_done w lines cs Hdec); rewrite Hu; [| exact Hfree].
    cbn [rbind app]. rewrite (py_join_texts _ Htext). reflexivity. }
  split; [exact Hout |].
  intros ->. inversion Hcont; subst. exact Hout.
Qed.

Lemma local_adapter_truncated_stream_witness :
  let cut := Sample.world Sample.offline
               (Sample.stream ["{'response':'The film','done':false}"%string;
                               "{'response':' is'}"%string])
               Sample.offline in
  let empty := Sample.world Sample.offline (Sample.stream []) Sample.offline in
  outcome (get_completion_ollama cut (lit "hello") OLLAMA_MODEL OLLAMA_URL)
    = Ok (PStr (lit "The film is")) /\
  outcome (get_completion_ollama empty (lit "hello") OLLAMA_MODEL OLLAMA_URL)
    = Ok (PStr []).
Proof.
  intros cut empty. split.
  - refine (proj1 (local_adapter_truncated_stream cut (lit "hello") OLLAMA_MODEL
              OLLAMA_URL _
              [ [(lit "response", PStr (lit "The film")); (lit "done", PBool false)];
                [(lit "response", PStr (lit " is"))] ] _ _ _)).
    + eexists. split; [reflexivity | split; reflexivity].
    + repeat constructor; vm_compute; reflexivity.
    + repeat constructor; vm_compute; eauto.
  - refine (proj2 (local_adapter_truncated_stream empty (lit "hello") OLLAMA_MODEL
              OLLAMA_URL [] [] _ _ _) eq_refl).
    + eexists. split; [reflexivity | split; reflexivity].
    + constructor.
    + constructor.
Defined.

(** One pass of the loop appends exactly one value to the buffer. *)
Lemma loop_body_appends (parts : list pyval) (body : pyval)
    (step : list pyval + list pyval) :
  loop_body parts body = Ok step ->
  exists x, step = inl (parts ++ [x]) \/ step = inr (parts ++ [x]).
Proof.
  unfold loop_body, rbind.
  destruct (py_in (lit "error") body) as [[] | e]; try discriminate.
  - destruct (py_getitem body (lit "error")); discriminate.
  - destruct (py_get body (lit "response") (PStr [])) as [x | e]; [| discriminate].
    destruct (py_get body (lit "done") PNone) as [d | e]; [| discriminate].
    destruct (truthy d); intros [= <-]; eauto.
Qed.

Lemma loop_body_buffer (parts parts0 : list pyval) (body : pyval) :
  loop_body (parts0 ++ parts) body =
  match loop_body parts body with
  | Ok (inl p) => Ok (inl (parts0 ++ p))
  | Ok (inr p) => Ok (inr (parts0 ++ p))
  | Raise e => Raise e
  end.
Proof.
  unfold loop_body, rbind.
  destruct (py_in (lit "error") body) as [[] | e]; try reflexivity.
  - destruct (py_getitem body (lit "error")); reflexivity.
  - destruct (py_get body (lit "response") (PStr [])) as [x | e]; [| reflexivity].
    destruct (py_get body (lit "done") PNone) as [d | e]; [| reflexivity].
    destruct (truthy d); now rewrite app_assoc.
Qed.

Lemma read_lines_buffer (w : env) (lines : list (list N)) (parts : list pyval) :
  read_lines w lines parts =
  match read_lines w lines [] with
  | Ok added => Ok (parts ++ added)
  | Raise e => Raise e
  end.
Proof.
  revert parts. induction lines as [| line lines IH]; intros parts.
  - cbn. now rewrite app_nil_r.
  - cbn [read_lines]. destruct (json_loads w (PBytes line)) as [body | e];
      [| reflexivity].
    cbn [rbind]. rewrite <- (app_nil_r parts) at 1.
    rewrite (loop_body_buffer [] parts body).
    destruct (loop_body [] body) as [[p | p] | e]; cbn [rbind]; try reflexivity.
    rewrite (IH (parts ++ p)), (IH p).
    destruct (read_lines w lines []) as [added | e]; [| reflexivity].
    now rewrite app_assoc.
Qed.

(** X8. The loop only appends: run on a buffer, it ends with that buffer
    followed by what it would have read from an empty one, and it fails
    when and as it would have from an empty one.  What it appends is at
    most one value per line. *)
Theorem read_lines_appends (w : env) (lines : list (list N)) (parts : list pyval) :
  read_lines w lines parts =
    match read_lines w lines [] with
    | Ok added => Ok (parts ++ added)
    | Raise e => Raise e
    end /\
  (forall added, read_lines w lines [] = Ok added ->
     (List.length added <= List.length lines)%nat).
Proof.
  split; [apply read_lines_buffer |].
  induction lines as [| line lines IH]; intros added.
  - cbn. intros [= <-]. cbn. lia.
  - cbn [read_lines]. destruct (json_loads w (PBytes line)) as [body | e];
      [| discriminate].
    cbn [rbind]. destruct (loop_body [] body) as [step | e] eqn:Hstep;
      [| discriminate].
    destruct (loop_body_appends [] body step Hstep) as [x [-> | ->]]; cbn [rbind app].
    + rewrite read_lines_buffer.
      destruct (read_lines w lines []) as [a |] eqn:Ha; [| discriminate].
      intros [= <-]. specialize (IH a eq_refl). cbn [List.length app]. lia.
    + intros [= <-]. cbn. lia.
Qed.

(** ** The translators *)

(** X9. When the tokenizer, the table of language codes and the model
    answer, the translator has made three calls: the tokenizer on the
    article, the model on the tokenizer's output with the first token
    forced to the code of [eng_Latn] and at most 30 tokens, and the
    decoding of what the model generated.  It returns the first decoded
    string, ignoring any other, and raises an index error when the
    decoding gives no string. *)
Theorem nllb_translate_steps (w : env) (article : pystr) (inputs : batch)
    (bos : Z) (tokens : batch) (decoded : list pystr) :
  tokenizer w article = Ok inputs ->
  id_lookup (lit "eng_Latn") (lang_code_to_id w) = Some bos ->
  model_generate w inputs bos 30 = Ok tokens ->
  batch_decode w tokens = Ok decoded ->
  trace (nllb_translate_tr_to_eng w article)
    = [ETokenizer article; EGenerate inputs bos 30; EBatchDecode tokens] /\
  outcome (nllb_translate_tr_to_eng w article)
    = match decoded with
      | eng :: _ => Ok eng
      | [] => Raise IndexError
      end.
Proof.
  intros Ht Hl Hg Hd.
  unfold nllb_translate_tr_to_eng, bind, call, liftR, ret, raise, trace, outcome.
  rewrite Ht, Hl, Hg, Hd. destruct decoded; split; reflexivity.
Qed.

Lemma nllb_translate_steps_witness :
  let w := Sample.world (Ok [lit "This film is great"; lit "unused"])
             Sample.offline Sample.offline in
  let article := lit "Bu film harika" in
  let inputs := [map Z.of_N article] in
  let tokens := [256047 :: map Z.of_N article] in
  trace (nllb_translate_tr_to_eng w article)
    = [ETokenizer article; EGenerate inputs 256047 30; EBatchDecode tokens] /\
  outcome (nllb_translate_tr_to_eng w article) = Ok (lit "This film is great").
Proof.
  intros w article inputs tokens.
  refine (nllb_translate_steps w article inputs 256047 tokens
            [lit "This film is great"; lit "unused"] _ _ _ _); reflexivity.
Defined.

(** X10. The translator stops at the first step that fails.  When the
    tokenizer raises, the model is not called; when the table of
    language codes has no entry for [eng_Latn], the translator raises a
    key error for that code and the model is not called; when the model
    raises, nothing is decoded.  In each case the exception is the
    translator's outcome. *)
Theorem nllb_translate_fails_fast (w : env) (article : pystr) :
  (forall e, tokenizer w article = Raise e ->
     nllb_translate_tr_to_eng w article = (Raise e, [ETokenizer article])) /\
  (forall inputs, tokenizer w article = Ok inputs ->
     id_lookup (lit "eng_Latn") (lang_code_to_id w) = None ->
     nllb_translate_tr_to_eng w article
       = (Raise (KeyError (lit "eng_Latn")), [ETokenizer article])) /\
  (forall inputs bos e, tokenizer w article = Ok inputs ->
     id_lookup (lit "eng_Latn") (lang_code_to_id w) = Some bos ->
     model_generate w inputs bos 30 = Raise e ->
     nllb_translate_tr_to_eng w article
       = (Raise e, [ETokenizer article; EGenerate inputs bos 30])).
Proof.
  unfold nllb_translate_tr_to_eng, bind, call, liftR, ret, raise.
  split; [| split].
  - intros e ->. reflexivity.
  - intros inputs -> ->. reflexivity.
  - intros inputs bos e -> -> ->. reflexivity.
Qed.

Lemma nllb_translate_fails_fast_witness :
  let w := {| tokenizer := fun article => Ok [map Z.of_N article];
              lang_code_to_id := [(lit "tur_Latn", 256184)];
              model_generate := fun inputs _ _ => Ok inputs;
              batch_decode := fun _ => Ok [lit "never reached"];
              requests_post := fun _ _ => Sample.offline;
              chat_completions_create := fun _ => Sample.offline;
              json_loads := Sample.loads |} in
  nllb_translate_tr_to_eng w (lit "Bu film harika")
    = (Raise (KeyError (lit "eng_Latn")), [ETokenizer (lit "Bu film harika")]).
Proof.
  intros w.
  refine (proj1 (proj2 (nllb_translate_fails_fast w (lit "Bu film harika"))) _ _ _);
    reflexivity.
Defined.





(** The run of the witness, call by call: what is decoded is what the
    model generated, the forced first token followed by the input. *)
Example mbart_run :
  mbart_translate_tr_to_eng (sample_hub (Ok [lit "This film is great"])) (lit "Evet")
  = (Ok (lit "This film is great"),
     [MLoadModel MBART_NAME; MLoadTokenizer MBART_NAME;
      MTokenizer (lit "tr_TR") (lit "Evet");
      MGenerate [[69; 118; 101; 116]] 250004;
      MBatchDecode [[250004; 69; 118; 101; 116]]]).
Proof. vm_compute. reflexivity. Qed.

(** ** The orchestrator, end to end *)

(** X12. The orchestrator returns a pair exactly when the translator
    (if selected) and the adapter succeeded and the adapter's reply
    decodes to an object holding both keys, and the pair is then the two
    values under the keys, whatever they are; it returns the sentinel
    exactly when the translator and the adapter succeeded and the reply
    is not JSON, lacks a key, or is not an object. *)
Theorem sentiment_analyzer_returns (w : env) (input : pystr) (is_local : bool) :
  (forall a b,
     outcome (sentiment_analyzer w input is_local) = Ok (PTuple [a; b]) <->
     exists text reply kvs,
       working_text w input is_local = Ok text /\
       outcome (selected_adapter w is_local (build_prompt text)) = Ok reply /\
       json_loads w reply = Ok (PDict kvs) /\
       dict_lookup SENTIMENT_KEY kvs = Some a /\
       dict_lookup OFFENSIVE_KEY kvs = Some b) /\
  (outcome (sentiment_analyzer w input is_local) = Ok SENTINEL <->
   exists text reply,
     working_text w input is_local = Ok text /\
     outcome (selected_adapter w is_local (build_prompt text)) = Ok reply /\
     (not_valid_json w reply \/ missing_key w reply \/ wrong_shape w reply)).
Proof.
  rewrite outcome_sentiment_analyzer. unfold rbind.
  destruct (working_text w input is_local) as [text | e].
  2: { split; [intros a b |]; (split; [discriminate |]).
       - intros (t & r & k & H & _). discriminate.
       - intros (t & r & H & _). discriminate. }
  destruct (outcome (selected_adapter w is_local (build_prompt text)))
    as [reply | e] eqn:Hr.
  2: { split; [intros a b |]; (split; [discriminate |]).
       - intros (t & r & k & Ht & H & _). congruence.
       - intros (t & r & Ht & H & _). congruence. }
  rewrite outcome_parse_reply.
  unfold not_valid_json, missing_key, wrong_shape.
  split; [intros a b |]; split.
  - destruct (json_loads w reply) as [v | e] eqn:Hd; [| discriminate].
    destruct v; try discriminate.
    destruct (dict_lookup SENTIMENT_KEY kvs) as [a' |] eqn:Ha; [| discriminate].
    destruct (dict_lookup OFFENSIVE_KEY kvs) as [b' |] eqn:Hb; [| discriminate].
    intros [= <- <-]. exists text, reply, kvs. auto 10.
  - intros (t & r & kvs & [= <-] & Hr' & Hd & Ha & Hb).
    rewrite Hr in Hr'. injection Hr' as <-. rewrite Hd, Ha, Hb. reflexivity.
  - intros H. exists text, reply. split; [reflexivity | split; [exact Hr |]].
    destruct (json_loads w reply) as [v | e]; [| left; eauto].
    destruct v; try (right; right; eexists; split; [reflexivity | discriminate]).
    right. left. exists kvs. split; [reflexivity |].
    destruct (dict_lookup SENTIMENT_KEY kvs); [| now left].
    destruct (dict_lookup OFFENSIVE_KEY kvs); [discriminate | now right].
  - intros (t & r & [= <-] & Hr' & Hcase).
    rewrite Hr in Hr'. injection Hr' as <-.
    destruct Hcase as [[e ->] | [(kvs & -> & Hk) | (v & -> & Hv)]].
    + reflexivity.
    + destruct Hk as [-> | ->]; [reflexivity |].
      destruct (dict_lookup SENTIMENT_KEY kvs); reflexivity.
    + destruct v; try reflexivity. exfalso. now apply (Hv kvs).
Qed.

Lemma sentiment_analyzer_returns_witness :
  let w := Sample.world Sample.offline Sample.offline
             (Sample.completion "{'offensive_score': null, 'sentiment_score': 'four', 'why': []}") in
  let input := lit "Fena degil" in
  outcome (sentiment_analyzer w input false)
    = Ok (PTuple [PStr (lit "four"); PNone]).
Proof.
  intros w input.
  apply (proj1 (sentiment_analyzer_returns w input false)).
  exists input, (PStr (Sample.jlit "{'offensive_score': null, 'sentiment_score': 'four', 'why': []}")),
    [(OFFENSIVE_KEY, PNone); (SENTIMENT_KEY, PStr (lit "four")); (lit "why", PList [])].
  repeat split; vm_compute; reflexivity.
Defined.

(** X13. When the completion service answers with no choice at all, the
    remote adapter raises an index error, and so does the orchestrator:
    this is not turned into the sentinel. *)
Theorem remote_adapter_no_choice (w : env) (input : pystr) :
  chat_completions_create w (openai_kwargs (build_prompt input) OPENAI_MODEL 0)
    = Ok {| choices := [] |} ->
  outcome (get_completion_openai w (build_prompt input) OPENAI_MODEL 0)
    = Raise IndexError /\
  outcome (sentiment_analyzer w input false) = Raise IndexError.
Proof.
  intros Hc.
  assert (Ha : outcome (get_completion_openai w (build_prompt input) OPENAI_MODEL 0)
               = Raise IndexError).
  { rewrite outcome_get_completion_openai, Hc. reflexivity. }
  split; [exact Ha |].
  rewrite outcome_sentiment_analyzer. cbn [working_text selected_adapter rbind].
  rewrite Ha. reflexivity.
Qed.

Lemma remote_adapter_no_choice_witness :
  let w := Sample.world Sample.offline Sample.offline (Ok {| choices := [] |}) in
  outcome (sentiment_analyzer w (lit "Bu film harika") false) = Raise IndexError.
Proof.
  intros w.
  exact (proj2 (remote_adapter_no_choice w (lit "Bu film harika") eq_refl)).
Defined.

(** X14. When the first choice of the completion holds no content
    ([None]) and the decoder raises on [None], as it does on anything
    that is not text, the orchestrator returns the sentinel. *)
Theorem remote_reply_without_content (w : env) (input : pystr)
    (cs : list choice) (e : exn) :
  chat_completions_create w (openai_kwargs (build_prompt input) OPENAI_MODEL 0)
    = Ok {| choices := {| message_of := {| content := PNone |} |} :: cs |} ->
  json_loads w PNone = Raise e ->
  outcome (sentiment_analyzer w input false) = Ok SENTINEL.
Proof.
  intros Hc Hd.
  rewrite outcome_sentiment_analyzer. cbn [working_text selected_adapter rbind].
  rewrite outcome_get_completion_openai, Hc. cbn [choices message_of content rbind].
  rewrite outcome_parse_reply, Hd. reflexivity.
Qed.

Lemma remote_reply_without_content_witness :
  let w := Sample.world Sample.offline Sample.offline
             (Ok {| choices := [ {| message_of := {| content := PNone |} |} ] |}) in
  outcome (sentiment_analyzer w (lit "Bu film harika") false) = Ok SENTINEL.
Proof.
  intros w.
  exact (remote_reply_without_content w (lit "Bu film harika") [] TypeError
           eq_refl eq_refl).
Defined.

(** ** The prompt *)

Lemma is_prefix_app (p a b : pystr) :
  is_prefix p a = true -> is_prefix p (a ++ b) = true.
Proof.
  revert a. induction p as [| x p IH]; intros a; [reflexivity |].
  destruct a as [| y a]; [discriminate |]. cbn [is_prefix app].
  intros H. apply andb_true_iff in H as [-> Hp]. now rewrite (IH a Hp).
Qed.

Lemma is_substring_app_l (p a b : pystr) :
  is_substring p a = true -> is_substring p (a ++ b) = true.
Proof.
  induction a as [| y a IH].
  - cbn [is_substring app]. rewrite orb_false_r. intros H.
    destruct p; [| discriminate]. destruct b; reflexivity.
  - cbn [app]. cbn [is_substring]. intros H. apply orb_true_iff in H as [H | H].
    + change (y :: a ++ b) with ((y :: a) ++ b). now rewrite (is_prefix_app _ _ b H).
    + rewrite (IH H). apply orb_true_r.
Qed.

(** X15. The prompt holds the comment as it is, unescaped, between
    [Comment: <] and [>], inside a text that does not depend on the
    comment; two comments give the same prompt only when they are the same
    comment; and for every comment the prompt names the two keys,
    [sentiment_score] and [offensive_score], that the parse step looks
    up in the reply. *)
Theorem prompt_embeds_comment :
  (exists before after, forall input,
     build_prompt input = before ++ lit "Comment: <" ++ input ++ lit ">" ++ after) /\
  (forall input input', build_prompt input = build_prompt input' -> input = input') /\
  (forall input, is_substring SENTIMENT_KEY (build_prompt input) = true /\
                 is_substring OFFENSIVE_KEY (build_prompt input) = true).
Proof.
  split; [| split].
  - exists (firstn (List.length prompt_head - 10) prompt_head), (skipn 1 prompt_tail).
    intros input. unfold build_prompt.
    replace prompt_tail with (lit ">" ++ skipn 1 prompt_tail) at 1 by reflexivity.
    replace prompt_head
      with (firstn (List.length prompt_head - 10) prompt_head ++ lit "Comment: <") at 1
      by (vm_compute; reflexivity).
    now rewrite <- !app_assoc.
  - unfold build_prompt. intros input input' H.
    apply app_inv_head in H. now apply app_inv_tail in H.
  - intros input. unfold build_prompt.
    split; apply is_substring_app_l; vm_compute; reflexivity.
Qed.

(** ** What a run prints and calls *)

Lemma trace_parse_reply (w : env) (reply : pyval) :
  trace (parse_reply w reply) =
  match json_loads w reply with
  | Ok _ => [EPrint DASHES]
  | Raise _ => []
  end.
Proof.
  unfold parse_reply, try_except, bind, liftR, print, call, ret, trace.
  destruct (json_loads w reply) as [v | e]; [| reflexivity].
  cbn [snd app].
  destruct (py_getitem v (lit "sentiment_score")); [| reflexivity].
  destruct (py_getitem v (lit "offensive_score")); reflexivity.
Qed.

(** X16. Every run starts by printing the original input.  With the
    local backend the translator's calls follow and, when it succeeded,
    the translated text and the model name [mistral] are printed; with the
    remote backend the model name [gpt-4-1106-preview] is printed.  Then
    comes the single call of the selected adapter; the reply is printed as
    it is when the adapter returned one, before it is parsed; and the row
    of fifty dashes is printed exactly when the reply decoded.  A run
    prints and calls nothing else. *)
Theorem sentiment_analyzer_trace (w : env) (input : pystr) (is_local : bool) :
  trace (sentiment_analyzer w input is_local) =
  EPrint (PStr (lit "Original Input: " ++ input)) ::
  (if is_local then
     trace (nllb_translate_tr_to_eng w input) ++
     match outcome (nllb_translate_tr_to_eng w input) with
     | Ok eng =>
         [EPrint (PStr (lit "Translated Input: " ++ eng));
          EPrint (PStr (lit "Model: " ++ OLLAMA_MODEL))] ++ reply_events w true eng
     | Raise _ => []
     end
   else
     EPrint (PStr (lit "Model: " ++ OPENAI_MODEL)) :: reply_events w false input).
Proof.
  unfold sentiment_analyzer, select_backend, reply_events, selected_adapter.
  destruct is_local.
  - unfold bind, print, call, ret, outcome, trace.
    destruct (nllb_translate_tr_to_eng w input) as [[eng | e] t1]; cbn [fst snd app].
    + destruct (get_completion_ollama w (build_prompt eng) OLLAMA_MODEL OLLAMA_URL)
        as [[reply | e] t2]; cbn [fst snd app].
      * pose proof (trace_parse_reply w reply) as Hp. unfold trace in Hp.
        destruct (parse_reply w reply) as [r t3]. cbn [fst snd app] in *.
        rewrite Hp, <- !app_assoc. reflexivity.
      * rewrite ?app_nil_r, <- ?app_assoc. reflexivity.
    + rewrite ?app_nil_r. reflexivity.
  - unfold bind, print, call, ret, outcome, trace.
    destruct (get_completion_openai w (build_prompt input) OPENAI_MODEL 0)
      as [[reply | e] t2]; cbn [fst snd app].
    + pose proof (trace_parse_reply w reply) as Hp. unfold trace in Hp.
      destruct (parse_reply w reply) as [r t3]. cbn [fst snd app] in *.
      rewrite Hp. reflexivity.
    + rewrite ?app_nil_r. reflexivity.
Qed.

(** ** Runs with the local backend *)

Lemma outcome_reassembled (w : env) (prompt model url : pystr)
    (lines : list (list N)) (cs : list chunk) :
  delivers w url prompt model lines ->
  Forall2 (decodes w) lines cs ->
  Forall (fun c => error_of c = None /\ has_text c) (upto_done cs) ->
  outcome (get_completion_ollama w prompt model url) = Ok (PStr (reassembled cs)).
Proof.
  intros Hdel Hdec Hok. apply Forall_and_split in Hok as [Hfree Htext].
  rewrite (outcome_delivered _ _ _ _ _ Hdel).
  rewrite (read_lines_upto_done w lines cs Hdec Hfree). cbn [rbind app].
  rewrite (py_join_texts _ Htext). reflexivity.
Qed.

(** X17. A whole run with the local backend: when the translator
    returns a text, the daemon answers the prompt built from that text
    with chunks free of [error] whose fragments, joined and stripped up
    to the first [done], decode to an object holding both keys, the
    orchestrator returns the pair of the two values under the keys.  The
    JSON text of the reply may be cut anywhere between chunks. *)
Theorem local_run_scores (w : env) (input eng : pystr) (lines : list (list N))
    (cs : list chunk) (kvs : list (pystr * pyval)) (a b : pyval) :
  outcome (nllb_translate_tr_to_eng w input) = Ok eng ->
  delivers w OLLAMA_URL (build_prompt eng) OLLAMA_MODEL lines ->
  Forall2 (decodes w) lines cs ->
  Forall (fun c => error_of c = None /\ has_text c) (upto_done cs) ->
  json_loads w (PStr (reassembled cs)) = Ok (PDict kvs) ->
  dict_lookup SENTIMENT_KEY kvs = Some a ->
  dict_lookup OFFENSIVE_KEY kvs = Some b ->
  outcome (sentiment_analyzer w input true) = Ok (PTuple [a; b]).
Proof.
  intros Ht Hdel Hdec Hok Hd Ha Hb.
  rewrite outcome_sentiment_analyzer. cbn [working_text selected_adapter].
  rewrite Ht. cbn [rbind].
  rewrite (outcome_reassembled _ _ _ _ _ _ Hdel Hdec Hok). cbn [rbind].
  rewrite outcome_parse_reply, Hd, Ha, Hb. reflexivity.
Qed.

Lemma local_run_scores_witness :
  let w := Sample.world (Ok [lit "This film is great"])
             (Sample.stream ["{'response':' {\'sentiment_sc','done':false}"%string;
                             "{'response':'ore\': 5, \'offensive_score\'','done':false}"%string;
                             "{'response':': 1}\n','done':true}"%string])
             Sample.offline in
  outcome (sentiment_analyzer w (lit "Bu film harika") true)
    = Ok (PTuple [PInt 5; PInt 1]).
Proof.
  intros w.
  refine (local_run_scores w (lit "Bu film harika") (lit "This film is great") _
            [ [(lit "response", PStr (Sample.jlit " {'sentiment_sc")); (lit "done", PBool false)];
              [(lit "response", PStr (Sample.jlit "ore': 5, 'offensive_score'"));
               (lit "done", PBool false)];
              [(lit "response", PStr (Sample.jlit ": 1}
")); (lit "done", PBool true)] ]
            [(SENTIMENT_KEY, PInt 5); (OFFENSIVE_KEY, PInt 1)] (PInt 5) (PInt 1)
            _ _ _ _ _ _ _).
  - vm_compute. reflexivity.
  - eexists. split; [reflexivity | split; reflexivity].
  - repeat constructor; vm_compute; reflexivity.
  - repeat constructor; vm_compute; eauto.
  - vm_compute. reflexivity.
  - vm_compute. reflexivity.
  - vm_compute. reflexivity.
Defined.

(** X18. A run with the local backend in which the daemon reports an
    error: when the translator returns a text and the stream answering
    the prompt built from it reaches a chunk with an [error] field, the
    orchestrator raises the exception carrying that field's value; the
    caller gets no sentinel. *)
Theorem local_run_daemon_error (w : env) (input eng : pystr)
    (pre : list (list N)) (cs : list chunk) (line : list N) (c : chunk)
    (msg : pyval) (rest : list (list N)) :
  outcome (nllb_translate_tr_to_eng w input) = Ok eng ->
  delivers w OLLAMA_URL (build_prompt eng) OLLAMA_MODEL (pre ++ line :: rest) ->
  Forall2 (continues w) pre cs ->
  decodes w line c ->
  error_of c = Some msg ->
  outcome (sentiment_analyzer w input true) = Raise (Exception_ msg).
Proof.
  intros Ht Hdel Hpre Hd He.
  rewrite outcome_sentiment_analyzer. cbn [working_text selected_adapter].
  rewrite Ht. cbn [rbind].
  rewrite (outcome_error_chunk _ _ _ _ _ _ _ _ _ _ Hdel Hpre Hd He). reflexivity.
Qed.

Lemma local_run_daemon_error_witness :
  let w := Sample.world (Ok [lit "This film is great"])
             (Sample.stream ["{'error':'model not found'}"%string])
             Sample.offline in
  outcome (sentiment_analyzer w (lit "Bu film harika") true)
    = Raise (Exception_ (PStr (lit "model not found"))).
Proof.
  intros w.
  refine (local_run_daemon_error w (lit "Bu film harika") (lit "This film is great")
            [] [] (Sample.jlit "{'error':'model not found'}")
            [(lit "error", PStr (lit "model not found"))]
            (PStr (lit "model not found")) [] _ _ _ _ _).
  - vm_compute. reflexivity.
  - eexists. split; [reflexivity | split; reflexivity].
  - constructor.
  - vm_compute. reflexivity.
  - vm_compute. reflexivity.
Defined.
